(** * Gmail subscription audit: extraction, record building, summary

    A shallow embedding of the subscription pipeline of
    [gmail-sub-agent/src/gmail_scanner.py], [subscription_analyzer.py] and
    the record-building loop of [agent.py], with the properties the
    specification states about it.

    Conventions of the embedding.
    - A Python [str] is a [string]: characters outside ASCII are carried as
      their UTF-8 bytes, and case mapping, [\d] and [\s] are those of the
      ASCII range.  The embedding is exact on texts whose letters, digits
      and white space are ASCII; the pound and euro signs are matched as
      their byte sequences.
    - A Python [float] is a binary64 [float] of [PrimFloat]; arithmetic is
      the IEEE arithmetic the interpreter performs.
    - A naive [datetime] is a number of microseconds on the local calendar
      axis, a [timedelta] a signed number of microseconds.
    - A [dict] read with [.get] is a record of optional fields, a [dict]
      built by the code is an association list in insertion order. *)

From Stdlib Require Import List String Ascii Bool ZArith QArith Lia.
From Stdlib Require Import PrimFloat FloatOps SpecFloat.
Import ListNotations.

Local Close Scope Q_scope.
Local Open Scope string_scope.
Local Open Scope list_scope.

(** ** Python string operations *)

Module PyStr.

Definition is_upper (c : ascii) : bool :=
  let n := nat_of_ascii c in (65 <=? n)%nat && (n <=? 90)%nat.

Definition is_lower (c : ascii) : bool :=
  let n := nat_of_ascii c in (97 <=? n)%nat && (n <=? 122)%nat.

Definition is_alpha (c : ascii) : bool := is_upper c || is_lower c.

(** [\d] *)
Definition is_digit (c : ascii) : bool :=
  let n := nat_of_ascii c in (48 <=? n)%nat && (n <=? 57)%nat.

(** [\s]: space, \t, \n, \v, \f, \r and the four separators 28 to 31 *)
Definition is_space (c : ascii) : bool :=
  let n := nat_of_ascii c in
  (n =? 32)%nat || ((9 <=? n)%nat && (n <=? 13)%nat)
  || ((28 <=? n)%nat && (n <=? 31)%nat).

Definition lower_char (c : ascii) : ascii :=
  if is_upper c then ascii_of_nat (nat_of_ascii c + 32) else c.

Definition upper_char (c : ascii) : ascii :=
  if is_lower c then ascii_of_nat (nat_of_ascii c - 32) else c.

(** [s.lower()] *)
Fixpoint lower (s : string) : string :=
  match s with
  | EmptyString => EmptyString
  | String c s' => String (lower_char c) (lower s')
  end.

(** [s.title()]: a letter that follows a cased character is lowered, any
    other letter is raised. *)
Fixpoint title_from (previous_is_cased : bool) (s : string) : string :=
  match s with
  | EmptyString => EmptyString
  | String c s' =>
      String (if previous_is_cased then lower_char c else upper_char c)
             (title_from (is_alpha c) s')
  end.

Definition title (s : string) : string := title_from false s.

(** [s.startswith(p)] *)
Fixpoint startswith (p s : string) : bool :=
  match p, s with
  | EmptyString, _ => true
  | String a p', String b s' => Ascii.eqb a b && startswith p' s'
  | String _ _, EmptyString => false
  end.

(** [needle in hay] *)
Fixpoint str_in (needle hay : string) : bool :=
  startswith needle hay ||
  match hay with
  | EmptyString => false
  | String _ hay' => str_in needle hay'
  end.

(** [c in s] for a one-character string [c] *)
Definition char_in (c : ascii) (s : string) : bool :=
  str_in (String c EmptyString) s.

(** [s.split(sep)] for a one-character separator: never the empty list. *)
Fixpoint split (sep : ascii) (s : string) : list string :=
  match s with
  | EmptyString => [EmptyString]
  | String c s' =>
      if Ascii.eqb c sep then EmptyString :: split sep s'
      else match split sep s' with
           | piece :: rest => String c piece :: rest
           | [] => [String c EmptyString]
           end
  end.

(** [l[0]] and [l[-1]] of a split result *)
Definition first (l : list string) : string := hd EmptyString l.
Definition final (l : list string) : string := last l EmptyString.

(** [s.replace(old, new)] for a one-character [old] *)
Fixpoint replace (old : ascii) (new : string) (s : string) : string :=
  match s with
  | EmptyString => EmptyString
  | String c s' =>
      if Ascii.eqb c old then new ++ replace old new s'
      else String c (replace old new s')
  end.

(** [x in l] for a list of strings *)
Definition mem (x : string) (l : list string) : bool :=
  existsb (String.eqb x) l.

(** [not s] *)
Definition is_empty (s : string) : bool :=
  match s with EmptyString => true | String _ _ => false end.

(** The double quote character, which a literal cannot hold. *)
Definition dquote : ascii := ascii_of_nat 34.

End PyStr.

(** ** Regular expressions: the subset of [re] the program uses

    A backtracking matcher with Python's priorities: alternation tries its
    left branch first, [?], [*] and [+] are greedy, and [search] returns the
    leftmost match.  Repetition is only ever applied to character classes in
    the program's patterns. *)

Module Re.

Inductive regex : Type :=
| Lit (s : string)            (* literal text *)
| Cls (p : ascii -> bool)     (* one character of a class *)
| Seq (r1 r2 : regex)
| Alt (r1 r2 : regex)         (* r1|r2 *)
| Opt (r : regex)             (* r? *)
| Star (p : ascii -> bool)    (* [class]* *)
| Plus (p : ascii -> bool)    (* [class]+ *)
| Group (r : regex).          (* ( r ), the first capturing group *)

(** A match object: [group(0)] and [group(1)]. *)
Record Match : Type := { group0 : string; group1 : option string }.

(** The text consumed between a position [s] and a later position [rest]. *)
Definition consumed (s rest : string) : string :=
  substring 0 (String.length s - String.length rest) s.

Section Matcher.

(** The [re.IGNORECASE] flag. *)
Variable ignorecase : bool.

Definition char_eq (a b : ascii) : bool :=
  if ignorecase then Ascii.eqb (PyStr.lower_char a) (PyStr.lower_char b)
  else Ascii.eqb a b.

(** Consume the literal [l] at the head of [s]. *)
Fixpoint strip (l s : string) : option string :=
  match l, s with
  | EmptyString, _ => Some s
  | String a l', String b s' => if char_eq a b then strip l' s' else None
  | String _ _, EmptyString => None
  end.

Fixpoint star {A : Type} (p : ascii -> bool) (s : string)
  (k : string -> option A) : option A :=
  match s with
  | String c s' =>
      if p c then
        match star p s' k with
        | Some x => Some x
        | None => k s
        end
      else k s
  | EmptyString => k s
  end.

(** [run r s g k]: match [r] at the head of [s] with group 1 currently [g],
    then continue with [k] on the rest; [None] asks the caller to
    backtrack. *)
Fixpoint run {A : Type} (r : regex) (s : string) (g : option string)
  (k : string -> option string -> option A) : option A :=
  match r with
  | Lit l => match strip l s with Some s' => k s' g | None => None end
  | Cls p =>
      match s with
      | String c s' => if p c then k s' g else None
      | EmptyString => None
      end
  | Seq r1 r2 => run r1 s g (fun s' g' => run r2 s' g' k)
  | Alt r1 r2 =>
      match run r1 s g k with
      | Some x => Some x
      | None => run r2 s g k
      end
  | Opt r' =>
      match run r' s g k with
      | Some x => Some x
      | None => k s g
      end
  | Star p => star p s (fun s' => k s' g)
  | Plus p =>
      match s with
      | String c s' => if p c then star p s' (fun s'' => k s'' g) else None
      | EmptyString => None
      end
  | Group r' => run r' s g (fun s' _ => k s' (Some (consumed s s')))
  end.

(** [re.match]-like: a match starting exactly at the head of [s]. *)
Definition match_here (r : regex) (s : string) : option Match :=
  run r s None
    (fun rest g => Some {| group0 := consumed s rest; group1 := g |}).

(** [re.search(r, s)]: the leftmost match, [None] when there is none. *)
Fixpoint search (r : regex) (s : string) : option Match :=
  match match_here r s with
  | Some m => Some m
  | None =>
      match s with
      | EmptyString => None
      | String _ s' => search r s'
      end
  end.

(** [re.finditer(r, s)]: the non-overlapping matches from left to right.
    [skip] counts the characters still covered by the previous match.  The
    patterns scanned this way consume at least one character. *)
Fixpoint finditer_from (r : regex) (s : string) (skip : nat) : list Match :=
  match s with
  | EmptyString => []
  | String _ s' =>
      match skip with
      | S n => finditer_from r s' n
      | O =>
          match match_here r s with
          | Some m => m :: finditer_from r s' (String.length (group0 m) - 1)
          | None => finditer_from r s' 0
          end
      end
  end.

Definition finditer (r : regex) (s : string) : list Match :=
  finditer_from r s 0.

End Matcher.

(** Pattern-building helpers. *)
Fixpoint seqs (rs : list regex) : regex :=
  match rs with
  | [] => Lit ""
  | [r] => r
  | r :: rs' => Seq r (seqs rs')
  end.

Fixpoint alts (rs : list regex) : regex :=
  match rs with
  | [] => Cls (fun _ => false)
  | [r] => r
  | r :: rs' => Alt r (alts rs')
  end.

Definition lits (ls : list string) : regex := alts (map Lit ls).

Definition digits : regex := Plus PyStr.is_digit.    (* \d+ *)
Definition digit : regex := Cls PyStr.is_digit.      (* \d *)
Definition spaces : regex := Star PyStr.is_space.    (* \s* *)
Definition spaces1 : regex := Plus PyStr.is_space.   (* \s+ *)

End Re.

(** ** [float(s)] on plain decimal text *)

Module PyFloat.

Definition digit_val (c : ascii) : Z := Z.of_nat (nat_of_ascii c - 48).

(** The number written by a run of decimal digits; [None] when another
    character occurs. *)
Fixpoint digits_val (acc : Z) (s : string) : option Z :=
  match s with
  | EmptyString => Some acc
  | String c s' =>
      if PyStr.is_digit c then digits_val (10 * acc + digit_val c) s'
      else None
  end.

(** The binary64 value nearest to [m / 10^k], ties to even. *)
Definition of_decimal (m : Z) (k : nat) : float :=
  match m, (10 ^ Z.of_nat k)%Z with
  | Zpos p, Zpos d =>
      SF2Prim (SFdiv prec emax (S754_finite false p 0) (S754_finite false d 0))
  | _, _ => 0%float
  end.

(** [float(s)] for [s] of the shape digits, digits.digits, digits. or
    .digits, which is every shape capture group 1 of the amount patterns can
    take; [None] stands for [ValueError]. *)
Definition float_of_string (s : string) : option float :=
  match PyStr.split "." s with
  | [i] =>
      if PyStr.is_empty i then None
      else option_map (fun m => of_decimal m 0) (digits_val 0 i)
  | [i; f] =>
      if PyStr.is_empty i && PyStr.is_empty f then None
      else
        match digits_val 0 i with
        | Some hi =>
            option_map (fun m => of_decimal m (String.length f))
                       (digits_val hi f)
        | None => None
        end
  | _ => None
  end.

End PyFloat.

(** ** Data model *)

(** The email dictionary built by [extract_email_content] and annotated by
    [scan_gmail]; every key is read with [.get], so every field is
    optional.  A timestamp is a number of seconds: the rational value of the
    Python number, which is what [sort] compares. *)
Record Email : Type := {
  e_id : option string;
  e_from : option string;
  e_subject : option string;
  e_body_text : option string;
  e_timestamp : option Q;
  e_service_name : option string
}.

(** [d.get(key, default)] *)
Definition get {A : Type} (field : option A) (default : A) : A :=
  match field with Some v => v | None => default end.

(** ** gmail_scanner.py *)

Module GmailScanner.

Import Re.

Definition service_providers : list string :=
  [ "netflix.com"; "spotify.com"; "adobe.com"; "dropbox.com";
    "amazon.com"; "apple.com"; "microsoft.com"; "google.com";
    "hulu.com"; "disney.com"; "hbo.com"; "github.com";
    "notion.so"; "canva.com"; "grammarly.com"; "zoom.us" ].

(** [[$£€]]: one of the three symbols, the last two in UTF-8. *)
Definition currency_symbol : regex := lits ["$"; "£"; "€"].

(** [\d+(?:[.,]\d+)?] *)
Definition amount_digits : regex :=
  Seq digits
      (Opt (Seq (Cls (fun c => Ascii.eqb c "." || Ascii.eqb c ",")) digits)).

Definition patterns : list regex :=
  [ seqs [currency_symbol; spaces; Group amount_digits];
    seqs [Group amount_digits; spaces; currency_symbol];
    seqs [Group amount_digits; spaces;
          lits ["USD"; "GBP"; "EUR"; "dollars"; "pounds"; "euros"]] ].

(** The currency of one match, decided on [match.group(0)]. *)
Definition resolve_currency (g0 : string) : string :=
  if PyStr.str_in "$" g0 || PyStr.str_in "USD" g0
     || PyStr.str_in "dollars" (PyStr.lower g0) then "USD"
  else if PyStr.str_in "£" g0 || PyStr.str_in "GBP" g0
          || PyStr.str_in "pounds" (PyStr.lower g0) then "GBP"
  else if PyStr.str_in "€" g0 || PyStr.str_in "EUR" g0
          || PyStr.str_in "euros" (PyStr.lower g0) then "EUR"
  else "USD".

(** The body of the inner loop: one match gives one pair, or nothing when
    [float] raises [ValueError]. *)
Definition amount_of_match (m : Match) : list (float * string) :=
  match group1 m with
  | Some g1 =>
      match PyFloat.float_of_string (PyStr.replace "," "." g1) with
      | Some amount => [(amount, resolve_currency (group0 m))]
      | None => []
      end
  | None => []
  end.

Definition extract_currency_amounts (text : string) : list (float * string) :=
  flat_map (fun pattern => flat_map amount_of_match (finditer true pattern text))
           patterns.

(** [word(?:\s+subscription)?] *)
Definition with_subscription (word : string) : regex :=
  Seq (Lit word) (Opt (Seq spaces1 (Lit "subscription"))).

Definition monthly_patterns : list regex :=
  [ with_subscription "monthly"; Lit "per month"; Lit "each month";
    Lit "every month"; Lit "/month"; Lit "month-to-month" ].

Definition annual_patterns : list regex :=
  [ with_subscription "annual"; with_subscription "yearly"; Lit "per year";
    Lit "each year"; Lit "every year"; Lit "/year"; Lit "12-month" ].

Definition quarterly_patterns : list regex :=
  [ with_subscription "quarterly"; Lit "per quarter"; Lit "every quarter";
    Lit "3-month"; Lit "three-month" ].

Definition weekly_patterns : list regex :=
  [ with_subscription "weekly"; Lit "per week"; Lit "each week";
    Lit "every week"; Lit "/week" ].

(** [re.search(pattern, text, re.IGNORECASE)] as a truth value *)
Definition found (pattern : regex) (text : string) : bool :=
  match search true pattern text with Some _ => true | None => false end.

(** One [for pattern in group: if re.search(...)] loop. *)
Definition any_found (group : list regex) (text : string) : bool :=
  existsb (fun pattern => found pattern text) group.

Definition extract_billing_frequency (text : string) : option string :=
  if any_found monthly_patterns text then Some "Monthly"
  else if any_found annual_patterns text then Some "Annual"
  else if any_found quarterly_patterns text then Some "Quarterly"
  else if any_found weekly_patterns text then Some "Weekly"
  else None.

(** The loop over [service_providers] on the subject line: the first
    provider whose name occurs in the lowered subject. *)
Fixpoint provider_in_subject (providers : list string) (subject : string)
  : option string :=
  match providers with
  | [] => None
  | provider :: rest =>
      let provider_name := PyStr.first (PyStr.split "." provider) in
      if PyStr.str_in provider_name (PyStr.lower subject)
      then Some (PyStr.title provider_name)
      else provider_in_subject rest subject
  end.

(** The last step: the first token of the From field, when that field is
    not empty. *)
Definition name_from_display (from_field : string) : string :=
  if PyStr.is_empty from_field then "Unknown Service"
  else
    PyStr.title
      (PyStr.replace "<" ""
         (PyStr.replace PyStr.dquote ""
            (PyStr.first (PyStr.split " " from_field)))).

Definition name_from_subject (email_data : Email) (from_field : string)
  : string :=
  match provider_in_subject service_providers (get (e_subject email_data) "")
  with
  | Some name => name
  | None => name_from_display from_field
  end.

Definition extract_service_name (email_data : Email) : string :=
  let from_field := get (e_from email_data) "" in
  if PyStr.str_in "@" from_field then
    let domain :=
      PyStr.first (PyStr.split ">" (PyStr.final (PyStr.split "@" from_field))) in
    let company := PyStr.first (PyStr.split "." domain) in
    if negb (PyStr.mem company ["gmail"; "yahoo"; "hotmail"; "outlook"; "mail"])
    then PyStr.title company
    else name_from_subject email_data from_field
  else name_from_subject email_data from_field.

End GmailScanner.

(** ** Dates, durations and the host environment *)

(** A naive [datetime] and a [timedelta], both in microseconds. *)
Definition datetime : Type := Z.
Definition timedelta : Type := Z.

Definition day_us : Z := 86400000000.

(** [timedelta(days=n)] *)
Definition days_delta (n : Z) : timedelta := (n * day_us)%Z.

(** [delta.days]: a [timedelta] is normalised with non-negative seconds and
    microseconds, so its [days] attribute is the floor. *)
Definition days (delta : timedelta) : Z := (delta / day_us)%Z.

Inductive exn : Type :=
| IndexError
| OverflowError
| ValueError
| OSError.

Inductive result (A : Type) : Type :=
| Ok (a : A)
| Raise (e : exn).

Arguments Ok {A} a.
Arguments Raise {A} e.

(** What the interpreter's host supplies: the successive readings of
    [datetime.now()], [datetime.fromtimestamp] (which depends on the local
    time zone and raises out of range) and [datetime.strptime] (which
    depends on the locale; [None] stands for [ValueError]). *)
Class Host : Type := {
  clock : nat -> datetime;
  fromtimestamp : Q -> result datetime;
  strptime : string -> string -> option datetime
}.

(** Computations that read the clock and may raise: the state is the number
    of clock readings made so far. *)
Definition M (A : Type) : Type := nat -> result (A * nat).

Definition ret {A : Type} (a : A) : M A := fun n => Ok (a, n).

Definition bind {A B : Type} (c : M A) (f : A -> M B) : M B :=
  fun n =>
    match c n with
    | Ok (a, n') => f a n'
    | Raise e => Raise e
    end.

Definition lift {A : Type} (r : result A) : M A :=
  fun n => match r with Ok a => Ok (a, n) | Raise e => Raise e end.

Notation "x <- c ;; k" := (bind c (fun x => k))
  (at level 61, c at next level, right associativity).

(** [datetime.now()] *)
Definition datetime_now `{Host} : M datetime := fun n => Ok (clock n, S n).

Fixpoint mapM {A B : Type} (f : A -> M B) (l : list A) : M (list B) :=
  match l with
  | [] => ret []
  | a :: l' => b <- f a ;; bs <- mapM f l' ;; ret (b :: bs)
  end.

(** ** The subscription record and the summary report *)

(** The dictionary [analyze_subscription_emails] assembles.  The six keys
    [generate_summary_report] reads with [.get] are optional; for
    [monthly_cost] and [trial_end_date] an absent key and a [None] value are
    read alike, so one [option] covers both. *)
Record Subscription : Type := {
  service_name : string;
  category : option string;
  amount : option float;
  currency : string;
  billing_frequency : string;
  monthly_cost : option float;
  last_email_date : option datetime;
  is_active : option bool;
  is_free_trial : option bool;
  trial_end_date : option datetime;
  email_count : nat;
  latest_email_id : option string
}.

Record CategoryStats : Type := {
  count : nat;
  cat_monthly_cost : float
}.

Record Summary : Type := {
  total_subscriptions : nat;
  active_subscriptions : nat;
  total_monthly_cost : float;
  annual_projection : float;
  categories : list (string * CategoryStats);
  trials_ending_soon : list Subscription;
  unused_subscriptions : list Subscription
}.

(** ** subscription_analyzer.py *)

Module SubscriptionAnalyzer.

Import Re.

#[local] Set Warnings "-inexact-float".

(** [self.service_categories], in the order the dictionary is written. *)
Definition service_categories : list (string * list string) :=
  [ ("streaming",
     [ "netflix"; "hulu"; "disney"; "spotify"; "apple music"; "youtube";
       "hbo"; "prime video"; "paramount"; "peacock"; "crunchyroll";
       "dazn"; "fubo"; "sling"; "tidal" ]);
    ("productivity",
     [ "microsoft"; "office"; "google"; "workspace"; "dropbox"; "box";
       "evernote"; "notion"; "airtable"; "asana"; "trello"; "slack";
       "zoom"; "adobe"; "canva"; "grammarly" ]);
    ("gaming",
     [ "xbox"; "playstation"; "nintendo"; "steam"; "epic games"; "ea play";
       "ubisoft"; "game pass"; "ps plus"; "nintendo online" ]);
    ("fitness",
     [ "peloton"; "fitbit"; "strava"; "myfitnesspal"; "beachbody";
       "classpass"; "fitness"; "gym"; "workout" ]);
    ("news",
     [ "nyt"; "new york times"; "wsj"; "wall street journal";
       "washington post"; "economist"; "financial times"; "bloomberg";
       "medium"; "substack" ]);
    ("shopping",
     [ "amazon"; "walmart"; "instacart"; "doordash"; "uber eats"; "grubhub";
       "hello fresh"; "blue apron"; "prime"; "costco" ]);
    ("security",
     [ "norton"; "mcafee"; "avast"; "avg"; "kaspersky"; "bitdefender";
       "vpn"; "password"; "lastpass"; "1password"; "dashlane" ]);
    ("cloud",
     [ "aws"; "amazon web"; "azure"; "google cloud"; "digitalocean";
       "linode"; "vultr"; "heroku"; "netlify"; "vercel" ]) ].

(** One pass of the nested loops over categories and their services. *)
Fixpoint match_category (cats : list (string * list string)) (text : string)
  : option string :=
  match cats with
  | [] => None
  | (cat, services) :: rest =>
      if existsb (fun service => PyStr.str_in service text) services
      then Some (PyStr.title cat)
      else match_category rest text
  end.

Definition categorize_subscription (name email_content : string) : string :=
  match match_category service_categories (PyStr.lower name) with
  | Some cat => cat
  | None =>
      match match_category service_categories (PyStr.lower email_content) with
      | Some cat => cat
      | None => "Other"
      end
  end.

Definition calculate_monthly_cost (amount : float) (frequency : string)
  : float :=
  if PyStr.is_empty frequency then amount
  else
    let frequency := PyStr.lower frequency in
    if PyStr.str_in "annual" frequency || PyStr.str_in "yearly" frequency
    then (amount / 12)%float
    else if PyStr.str_in "quarterly" frequency then (amount / 3)%float
    else if PyStr.str_in "weekly" frequency then (amount * 4.33)%float
    else if PyStr.str_in "daily" frequency then (amount * 30.42)%float
    else amount.

Section WithHost.

Context `{Host}.

Definition is_subscription_active (last_email_date : datetime)
  (threshold_days : Z) : M bool :=
  now <- datetime_now ;;
  ret (days (now - last_email_date) <=? threshold_days)%Z.

Definition trial_patterns : list regex :=
  [ Lit "free trial"; Lit "trial period"; Lit "trial ends";
    Lit "trial will end"; Lit "trial expir" ].

(** [[A-Za-z]+\s+\d{1,2}(?:st|nd|rd|th)?,?\s+\d{4}] *)
Definition long_date : regex :=
  seqs [ Plus PyStr.is_alpha; spaces1; digit; Opt digit;
         Opt (lits ["st"; "nd"; "rd"; "th"]); Opt (Lit ","); spaces1;
         digit; digit; digit; digit ].

(** [\d{1,2}[/-]\d{1,2}[/-]\d{2,4}] *)
Definition numeric_date : regex :=
  let sep := Cls (fun c => Ascii.eqb c "/" || Ascii.eqb c "-") in
  seqs [ digit; Opt digit; sep; digit; Opt digit; sep;
         digit; digit; Opt (Seq digit (Opt digit)) ].

(** [trial\s+(?:will\s+)?end(?:s|ing)?\s+] *)
Definition trial_end_prefix : list regex :=
  [ Lit "trial"; spaces1; Opt (Seq (Lit "will") spaces1); Lit "end";
    Opt (lits ["s"; "ing"]); spaces1 ].

Definition date_patterns : list regex :=
  [ seqs (trial_end_prefix ++ [Lit "on"; spaces1; Group long_date]);
    seqs (trial_end_prefix ++ [Opt (Seq (Lit "on") spaces1); Group numeric_date]);
    seqs [Lit "until"; spaces1; Group long_date];
    seqs [Lit "expires"; spaces1; Opt (Seq (Lit "on") spaces1); Group long_date] ].

Definition date_formats : list string :=
  [ "%B %d, %Y"; "%B %d %Y"; "%m/%d/%Y"; "%m-%d-%Y"; "%d/%m/%Y"; "%d-%m-%Y" ].

(** The loop over formats: the first one [strptime] accepts. *)
Fixpoint parse_date (date_str : string) (formats : list string)
  : option datetime :=
  match formats with
  | [] => None
  | fmt :: rest =>
      match strptime date_str fmt with
      | Some d => Some d
      | None => parse_date date_str rest
      end
  end.

(** The loop over date patterns: the first match whose text parses. *)
Fixpoint find_end_date (pats : list regex) (email_content : string)
  : option datetime :=
  match pats with
  | [] => None
  | pattern :: rest =>
      match search true pattern email_content with
      | Some m =>
          match parse_date (get (group1 m) "") date_formats with
          | Some d => Some d
          | None => find_end_date rest email_content
          end
      | None => find_end_date rest email_content
      end
  end.

Definition detect_free_trial (email_content : string)
  : bool * option datetime :=
  if GmailScanner.any_found trial_patterns email_content
  then (true, find_end_date date_patterns email_content)
  else (false, None).

(** *** analyze_subscription_emails *)

(** The key under which one email is filed. *)
Definition service_key (email : Email) : string :=
  let from_field := get (e_from email) "" in
  let from_domain :=
    if PyStr.str_in "@" from_field
    then PyStr.first (PyStr.split ">" (PyStr.final (PyStr.split "@" from_field)))
    else "" in
  get (e_service_name email)
      (PyStr.title (PyStr.first (PyStr.split "." from_domain))).

(** [service_emails[key].append(email)], creating the entry when absent. *)
Fixpoint dict_append (key : string) (email : Email)
  (d : list (string * list Email)) : list (string * list Email) :=
  match d with
  | [] => [(key, [email])]
  | (k, l) :: d' =>
      if String.eqb k key then (k, l ++ [email]) :: d'
      else (k, l) :: dict_append key email d'
  end.

Definition group_by_service (emails : list Email)
  : list (string * list Email) :=
  fold_left (fun d email => dict_append (service_key email) email d) emails [].

Definition timestamp_of (email : Email) : Q := get (e_timestamp email) 0%Q.

(** [l.sort(key=timestamp, reverse=True)]: the sort is stable, and with
    [reverse=True] equal keys still keep their original order. *)
Fixpoint insert_newest_first (email : Email) (sorted : list Email)
  : list Email :=
  match sorted with
  | [] => [email]
  | x :: rest =>
      if Qle_bool (timestamp_of x) (timestamp_of email)
      then email :: sorted
      else x :: insert_newest_first email rest
  end.

Definition sort_newest_first (l : list Email) : list Email :=
  fold_right insert_newest_first [] l.

(** [l[0]] *)
Definition index0 {A : Type} (l : list A) : M A :=
  match l with
  | x :: _ => ret x
  | [] => lift (Raise IndexError)
  end.

(** The attributes of a [dict] object. *)
Definition dict_attributes : list string :=
  [ "__class__"; "__class_getitem__"; "__contains__"; "__delattr__";
    "__delitem__"; "__dir__"; "__doc__"; "__eq__"; "__format__"; "__ge__";
    "__getattribute__"; "__getitem__"; "__getstate__"; "__gt__"; "__hash__";
    "__init__"; "__init_subclass__"; "__ior__"; "__iter__"; "__le__";
    "__len__"; "__lt__"; "__ne__"; "__new__"; "__or__"; "__reduce__";
    "__reduce_ex__"; "__repr__"; "__reversed__"; "__ror__"; "__setattr__";
    "__setitem__"; "__sizeof__"; "__str__"; "__subclasshook__"; "clear";
    "copy"; "fromkeys"; "get"; "items"; "keys"; "pop"; "popitem";
    "setdefault"; "update"; "values" ].

(** [hasattr(email, name)] for an email dictionary: attribute lookup goes to
    the [dict] type, never to the keys. *)
Definition hasattr (email : Email) (name : string) : bool :=
  PyStr.mem name dict_attributes.

(** [amount_counts]: occurrences per amount, in first-seen order. *)
Fixpoint count_up (amount : float) (counts : list (float * nat))
  : list (float * nat) :=
  match counts with
  | [] => [(amount, 1%nat)]
  | (a, n) :: rest =>
      if PrimFloat.eqb a amount then (a, S n) :: rest
      else (a, n) :: count_up amount rest
  end.

Definition amount_counts (amounts : list (float * string))
  : list (float * nat) :=
  fold_left (fun counts pair => count_up (fst pair) counts) amounts [].

(** [max(items, key=lambda x: x[1])]: the first item with the largest
    count. *)
Fixpoint max_item (best : float * nat) (items : list (float * nat))
  : float * nat :=
  match items with
  | [] => best
  | item :: rest =>
      if (snd best <? snd item)%nat then max_item item rest
      else max_item best rest
  end.

(** The currency of the first pair with the selected amount. *)
Fixpoint currency_of (selected : float) (amounts : list (float * string))
  : string :=
  match amounts with
  | [] => "USD"
  | (a, curr) :: rest =>
      if PrimFloat.eqb a selected then curr else currency_of selected rest
  end.

Definition select_amount (amounts : list (float * string))
  : option float * string :=
  match amount_counts amounts with
  | [] => (None, "USD")
  | item :: rest =>
      let most_common_amount := fst (max_item item rest) in
      (Some most_common_amount, currency_of most_common_amount amounts)
  end.

Definition infer_frequency (email_body : string) : string :=
  if GmailScanner.found (lits ["monthly"; "per month"; "/month"]) email_body
  then "Monthly"
  else if GmailScanner.found
            (lits ["annual"; "yearly"; "per year"; "/year"]) email_body
  then "Annual"
  else if GmailScanner.found
            (lits ["quarterly"; "per quarter"; "every 3 months"]) email_body
  then "Quarterly"
  else "Unknown".

(** The body of the loop over [service_emails.items()]. *)
Definition analyze_service (entry : string * list Email) : M Subscription :=
  let (name, service_email_list) := entry in
  let service_email_list := sort_newest_first service_email_list in
  latest_email <- index0 service_email_list ;;
  email_date <- lift (fromtimestamp (timestamp_of latest_email)) ;;
  let email_body := get (e_body_text latest_email) "" in
  let amounts :=
    if hasattr latest_email "extract_currency_amounts"
    then GmailScanner.extract_currency_amounts email_body
    else [] in
  let (subscription_amount, curr) := select_amount amounts in
  let extracted :=
    if hasattr latest_email "extract_billing_frequency"
    then GmailScanner.extract_billing_frequency email_body
    else None in
  let frequency :=
    match extracted with
    | Some f => if PyStr.is_empty f then infer_frequency email_body else f
    | None => infer_frequency email_body
    end in
  let cat := categorize_subscription name email_body in
  let (trial, trial_end) := detect_free_trial email_body in
  let cost :=
    match subscription_amount with
    | Some a => Some (calculate_monthly_cost a frequency)
    | None => None
    end in
  active <- is_subscription_active email_date 60 ;;
  ret {| service_name := name;
         category := Some cat;
         amount := subscription_amount;
         currency := curr;
         billing_frequency := frequency;
         monthly_cost := cost;
         last_email_date := Some email_date;
         is_active := Some active;
         is_free_trial := Some trial;
         trial_end_date := trial_end;
         email_count := List.length service_email_list;
         latest_email_id := e_id latest_email |}.

Definition analyze_subscription_emails (emails : list Email)
  : M (list Subscription) :=
  mapM analyze_service (group_by_service emails).

(** *** generate_summary_report *)

Definition active_only (subscriptions : list Subscription)
  : list Subscription :=
  filter (fun s => get (is_active s) false) subscriptions.

(** [sum(... for s in active if s.get('monthly_cost') is not None)] *)
Definition sum_monthly_cost (subscriptions : list Subscription) : float :=
  fold_left
    (fun acc s =>
       match monthly_cost s with
       | Some c => (acc + c)%float
       | None => acc
       end)
    subscriptions 0%float.

(** [sub.get('monthly_cost', 0) or 0] *)
Definition cost_or_zero (s : Subscription) : float :=
  match monthly_cost s with
  | Some c => if PrimFloat.is_zero c then 0%float else c
  | None => 0%float
  end.

(** One iteration of the loop that fills [categories]. *)
Fixpoint add_to_category (cat : string) (cost : float)
  (cats : list (string * CategoryStats)) : list (string * CategoryStats) :=
  match cats with
  | [] => [(cat, {| count := 1; cat_monthly_cost := (0 + cost)%float |})]
  | (k, st) :: rest =>
      if String.eqb k cat
      then (k, {| count := S (count st);
                  cat_monthly_cost := (cat_monthly_cost st + cost)%float |})
           :: rest
      else (k, st) :: add_to_category cat cost rest
  end.

Definition group_by_category (subscriptions : list Subscription)
  : list (string * CategoryStats) :=
  fold_left
    (fun cats s => add_to_category (get (category s) "Other") (cost_or_zero s) cats)
    subscriptions [].

Definition trial_ending_soon (current_date : datetime) (s : Subscription)
  : bool :=
  get (is_free_trial s) false &&
  match trial_end_date s with
  | Some trial_end =>
      (current_date <? trial_end)%Z &&
      (days (trial_end - current_date) <=? 14)%Z
  | None => false
  end.

Definition unused_threshold : Z := 60.

Definition unused (current_date : datetime) (s : Subscription) : bool :=
  (days (current_date - get (last_email_date s) current_date)
   >? unused_threshold)%Z.

(** The report for one reading [current_date] of the clock. *)
Definition summary_at (current_date : datetime)
  (subscriptions : list Subscription) : Summary :=
  let active := active_only subscriptions in
  let total := sum_monthly_cost active in
  {| total_subscriptions := List.length subscriptions;
     active_subscriptions := List.length active;
     total_monthly_cost := total;
     annual_projection := (total * 12)%float;
     categories := group_by_category active;
     trials_ending_soon := filter (trial_ending_soon current_date) subscriptions;
     unused_subscriptions := filter (unused current_date) active |}.

Definition generate_summary_report (subscriptions : list Subscription)
  : M Summary :=
  current_date <- datetime_now ;;
  ret (summary_at current_date subscriptions).

End WithHost.

End SubscriptionAnalyzer.

(** ** agent.py: the record-building part of [scan_gmail] *)

Module GmailSubAgent.

(** [email['service_name'] = self.gmail_scanner.extract_service_name(email)] *)
Definition annotate (email : Email) : Email :=
  {| e_id := e_id email;
     e_from := e_from email;
     e_subject := e_subject email;
     e_body_text := e_body_text email;
     e_timestamp := e_timestamp email;
     e_service_name := Some (GmailScanner.extract_service_name email) |}.

(** The specification's [buildSubscriptionRecords]: the loop of [scan_gmail]
    that names every retrieved email, followed by
    [analyze_subscription_emails].  Retrieval and the advisory agent call,
    whose result no later step reads, are left out. *)
Definition buildSubscriptionRecords `{Host} (emails : list Email)
  : M (list Subscription) :=
  SubscriptionAnalyzer.analyze_subscription_emails (map annotate emails).

(** The specification's [summarize(records, now)]. *)
Definition summarize (records : list Subscription) (now : datetime)
  : Summary :=
  SubscriptionAnalyzer.summary_at now records.

End GmailSubAgent.

(** ** Sample hosts and inputs *)

Module Samples.

(** A host in the UTC zone whose clock stands at [now]; timestamps become
    whole microseconds.  No date text parses in its locale. *)
Definition utc_host (now : datetime) : Host :=
  {| clock := fun _ => now;
     fromtimestamp := fun ts => Ok (Qnum (ts * 1000000) / Zpos (Qden (ts * 1000000)))%Z;
     strptime := fun _ _ => None |}.

(** 1 January 2025, 00:00, counted from the epoch. *)
Definition new_year_2025 : datetime := (1735689600 * 1000000)%Z.

Definition hour_us : Z := 3600000000.

Definition email (id from subject body : string) (ts : Q) : Email :=
  {| e_id := Some id;
     e_from := Some from;
     e_subject := Some subject;
     e_body_text := Some body;
     e_timestamp := Some ts;
     e_service_name := None |}.

(** A bill whose body carries a symbol-prefixed amount. *)
Definition bill : Email :=
  email "m1" "Netflix <info@netflix.com>" "Your receipt"
        "Your bill: $12.50 due" 1735000000.

(** A sender with an empty quoted display name and a webmail address. *)
Definition empty_display_name : string :=
  String PyStr.dquote (String PyStr.dquote " <billing@gmail.com>").

Definition nameless : Email :=
  email "m2" empty_display_name "Your receipt" "Thank you" 1735000000.

(** A message as retrieved, not yet named, whose sender field holds no
    address. *)
Definition no_address : Email :=
  email "m3" "Acme Billing" "Your receipt" "Thank you" 1735000000.

(** Three messages of one service: the last two share the newest
    timestamp. *)
Definition tie_group : list Email :=
  [ email "first" "Netflix <info@netflix.com>" "Receipt" "old" 100;
    email "second" "Netflix <info@netflix.com>" "Receipt" "new" 200;
    email "third" "Netflix <info@netflix.com>" "Receipt" "new too" 200 ].

(** A record as [analyze_subscription_emails] assembles it, reduced to the
    fields the report reads. *)
Definition record (name : string) (active : bool) (last : datetime)
  (trial : bool) (trial_end : option datetime) : Subscription :=
  {| service_name := name;
     category := Some "Other";
     amount := None;
     currency := "USD";
     billing_frequency := "Unknown";
     monthly_cost := None;
     last_email_date := Some last;
     is_active := Some active;
     is_free_trial := Some trial;
     trial_end_date := trial_end;
     email_count := 1;
     latest_email_id := None |}.

End Samples.

(** ** Notions used to state the properties *)

Module Notions.

Import SubscriptionAnalyzer.

(** [rep] is the first of the newest messages of [group]: everything before
    it is strictly older, nothing after it is newer. *)
Definition first_newest (group : list Email) (rep : Email) : Prop :=
  exists before after,
    group = before ++ rep :: after /\
    (forall m, In m before -> (timestamp_of m < timestamp_of rep)%Q) /\
    (forall m, In m after -> (timestamp_of m <= timestamp_of rep)%Q).

(** The entry filed under [k] in an insertion-ordered dictionary. *)
Fixpoint lookup (k : string) (d : list (string * list Email))
  : option (list Email) :=
  match d with
  | [] => None
  | (k', g) :: d' => if String.eqb k' k then Some g else lookup k d'
  end.

(** The emails of [emails] filed under [k], in their original order. *)
Definition filed_under (k : string) (emails : list Email) : list Email :=
  filter (fun e => String.eqb (service_key e) k) emails.

Definition nonempty (g : list Email) : option (list Email) :=
  match g with [] => None | _ :: _ => Some g end.

End Notions.

(** ** gmail_scanner.py: the end of [scan_for_subscriptions] *)

Module Dedup.

(** [d[key] = email] on an insertion-ordered dictionary: a key that is
    present keeps its place and takes the new value. *)
Fixpoint dict_set (key : string) (email : Email) (d : list (string * Email))
  : list (string * Email) :=
  match d with
  | [] => [(key, email)]
  | (k, v) :: d' =>
      if String.eqb k key then (k, email) :: d'
      else (k, v) :: dict_set key email d'
  end.

(** [{email['id']: email for email in all_subscription_emails}], started
    from the dictionary [d]; [None] stands for the [KeyError] of a message
    without an id. *)
Fixpoint unique_from (d : list (string * Email)) (emails : list Email)
  : option (list (string * Email)) :=
  match emails with
  | [] => Some d
  | email :: rest =>
      match e_id email with
      | Some i => unique_from (dict_set i email d) rest
      | None => None
      end
  end.

(** The last two statements of [scan_for_subscriptions]:
    [list(unique_emails.values())]. *)
Definition unique_emails (all_subscription_emails : list Email)
  : option (list Email) :=
  option_map (map snd) (unique_from [] all_subscription_emails).

End Dedup.

(** ** agent.py: the tools and [scan_gmail] *)

Module AgentTools.

(** [len(s)]: the number of characters, a character being every byte that
    is not a UTF-8 continuation byte. *)
Fixpoint len (s : string) : nat :=
  match s with
  | EmptyString => 0
  | String c s' =>
      let n := nat_of_ascii c in
      if (128 <=? n)%nat && (n <=? 191)%nat then len s' else S (len s')
  end.

(** The dictionary [analyze_email_content] returns. *)
Record Analysis : Type := {
  amounts : list (float * string);
  analysis_billing_frequency : option string;
  analysis_is_free_trial : bool;
  content_length : nat
}.

Definition analyze_email_content (email_content : string) : Analysis :=
  {| amounts := GmailScanner.extract_currency_amounts email_content;
     analysis_billing_frequency :=
       GmailScanner.extract_billing_frequency email_content;
     analysis_is_free_trial :=
       existsb (fun phrase => PyStr.str_in phrase (PyStr.lower email_content))
               ["free trial"; "trial period"; "trial ends"];
     content_length := len email_content |}.

(** The dictionary [calculate_costs] returns. *)
Record Costs : Type := {
  costs_monthly_cost : float;
  annual_cost : float;
  original_amount : float;
  frequency : string
}.

Definition calculate_costs (amount : float) (freq : string) : Costs :=
  let monthly := SubscriptionAnalyzer.calculate_monthly_cost amount freq in
  {| costs_monthly_cost := monthly;
     annual_cost := (monthly * 12)%float;
     original_amount := amount;
     frequency := freq |}.

(** [self.subscriptions] and [self.summary]; the summary is the empty
    dictionary, here [None], until a scan has set it. *)
Record AgentState : Type := {
  self_subscriptions : list Subscription;
  self_summary : option Summary
}.

(** The state [__init__] leaves. *)
Definition initial_state : AgentState :=
  {| self_subscriptions := []; self_summary := None |}.

(** [scan_gmail], given what the two calls to the scanner returned:
    whether [authenticate] succeeded and, if so, the emails
    [scan_for_subscriptions] found.  The result is the returned list and
    the agent's state afterwards. *)
Definition scan_gmail `{Host} (self : AgentState) (authenticated : bool)
  (emails : list Email) : M (list Subscription * AgentState) :=
  if negb authenticated then ret ([], self)
  else
    records <- GmailSubAgent.buildSubscriptionRecords emails ;;
    report <- SubscriptionAnalyzer.generate_summary_report records ;;
    ret (records,
         {| self_subscriptions := records; self_summary := Some report |}).

Definition get_summary (self : AgentState) : option Summary :=
  self_summary self.

End AgentTools.

(** ** Further notions used to state properties *)

Module MoreNotions.

Import SubscriptionAnalyzer.

(** [t] holds of some suffix of [s], the empty one included. *)
Fixpoint any_suffix (t : string -> bool) (s : string) : bool :=
  t s ||
  match s with
  | EmptyString => false
  | String _ s' => any_suffix t s'
  end.


(** [categorize_subscription] over an arbitrary keyword table. *)
Definition categorize_with (table : list (string * list string))
  (name email_content : string) : string :=
  match match_category table (PyStr.lower name) with
  | Some cat => cat
  | None =>
      match match_category table (PyStr.lower email_content) with
      | Some cat => cat
      | None => "Other"
      end
  end.

(** The keyword table without the keywords that contain another keyword of
    the same or an earlier category. *)
Definition decisive_categories : list (string * list string) :=
  [ ("streaming",
     [ "netflix"; "hulu"; "disney"; "spotify"; "apple music"; "youtube";
       "hbo"; "prime video"; "paramount"; "peacock"; "crunchyroll";
       "dazn"; "fubo"; "sling"; "tidal" ]);
    ("productivity",
     [ "microsoft"; "office"; "google"; "workspace"; "box";
       "evernote"; "notion"; "airtable"; "asana"; "trello"; "slack";
       "zoom"; "adobe"; "canva"; "grammarly" ]);
    ("gaming",
     [ "playstation"; "nintendo"; "steam"; "epic games"; "ea play";
       "ubisoft"; "game pass"; "ps plus" ]);
    ("fitness",
     [ "peloton"; "fitbit"; "strava"; "beachbody";
       "classpass"; "fitness"; "gym"; "workout" ]);
    ("news",
     [ "nyt"; "new york times"; "wsj"; "wall street journal";
       "washington post"; "economist"; "financial times"; "bloomberg";
       "medium"; "substack" ]);
    ("shopping",
     [ "amazon"; "walmart"; "instacart"; "doordash"; "uber eats"; "grubhub";
       "hello fresh"; "blue apron"; "prime"; "costco" ]);
    ("security",
     [ "norton"; "mcafee"; "avast"; "avg"; "kaspersky"; "bitdefender";
       "vpn"; "password"; "lastpass"; "dashlane" ]);
    ("cloud",
     [ "aws"; "azure"; "digitalocean";
       "linode"; "vultr"; "heroku"; "netlify"; "vercel" ]) ].

(** The value stored under [k]. *)
Fixpoint lookup_email (k : string) (d : list (string * Email))
  : option Email :=
  match d with
  | [] => None
  | (k', v) :: d' => if String.eqb k' k then Some v else lookup_email k d'
  end.

Definition has_id (k : string) (e : Email) : bool :=
  match e_id e with Some i => String.eqb i k | None => false end.

(** The last email of [emails] whose id is [k]. *)
Definition last_with_id (k : string) (emails : list Email) : option Email :=
  find (has_id k) (rev emails).

Fixpoint lookup_stats (k : string) (d : list (string * CategoryStats))
  : option CategoryStats :=
  match d with
  | [] => None
  | (k', st) :: d' => if String.eqb k' k then Some st else lookup_stats k d'
  end.

(** The category a record is counted under. *)
Definition category_of (s : Subscription) : string :=
  get (category s) "Other".

(** How many records of [subs] are counted under [k]. *)
Definition count_in_category (k : string) (subs : list Subscription) : nat :=
  List.length (filter (fun s => String.eqb (category_of s) k) subs).

(** The count stored under [k], 0 when the category is absent. *)
Definition count_under (k : string) (d : list (string * CategoryStats)) : nat :=
  match lookup_stats k d with Some st => count st | None => 0%nat end.

Definition total_count (cats : list (string * CategoryStats)) : nat :=
  fold_right (fun entry acc => (count (snd entry) + acc)%nat) 0%nat cats.

(** The first domain label of a sender field, as both
    [extract_service_name] and [analyze_subscription_emails] cut it out. *)
Definition company_of (from_field : string) : string :=
  PyStr.first
    (PyStr.split "."
       (PyStr.first (PyStr.split ">" (PyStr.final (PyStr.split "@" from_field))))).

Definition generic_domains : list string :=
  ["gmail"; "yahoo"; "hotmail"; "outlook"; "mail"].

End MoreNotions.

(** ** Further sample hosts and inputs *)

Module MoreSamples.

(** A host in the UTC zone that converts the timestamps of the years 1 to
    9999 and raises on the others. *)
Definition bounded_host (now : datetime) : Host :=
  {| clock := fun _ => now;
     fromtimestamp := fun ts =>
       if Qle_bool (-62135596800) ts && Qle_bool ts 253402300799
       then Ok (Qnum (ts * 1000000) / Zpos (Qden (ts * 1000000)))%Z
       else Raise OverflowError;
     strptime := fun _ _ => None |}.

(** Two services; the only message of the second carries a timestamp in
    milliseconds, far beyond the year 9999. *)
Definition one_bad_timestamp : list Email :=
  [ Samples.email "n1" "Netflix <info@netflix.com>" "Receipt" "" 1735000000;
    Samples.email "h1" "Hulu <info@hulu.com>" "Receipt" "" 1735000000000 ].

(** Four retrieved messages, the first and the third with the same id. *)
Definition retrieved_twice : list Email :=
  [ Samples.email "m1" "Netflix <info@netflix.com>" "Receipt" "first copy" 100;
    Samples.email "m2" "Hulu <info@hulu.com>" "Receipt" "" 200;
    Samples.email "m1" "Netflix <info@netflix.com>" "Receipt" "second copy" 100;
    Samples.email "m3" "Hulu <info@hulu.com>" "Receipt" "" 300 ].

(** 5 January 2025, 00:00. *)
Definition january_5_2025 : datetime := (1736035200 * 1000000)%Z.

(** A host whose [strptime] reads one date text in the long format with a
    comma, and nothing else. *)
Definition parsing_host (now : datetime) : Host :=
  {| clock := fun _ => now;
     fromtimestamp := fun ts =>
       Ok (Qnum (ts * 1000000) / Zpos (Qden (ts * 1000000)))%Z;
     strptime := fun date_str fmt =>
       if String.eqb date_str "January 5, 2025" && String.eqb fmt "%B %d, %Y"
       then Some january_5_2025 else None |}.

End MoreSamples.

(** * Properties *)

Import Re GmailScanner SubscriptionAnalyzer GmailSubAgent Notions.

(** ** Helper facts about strings and the matcher *)

Lemma strip_of_startswith (l s : string) :
  PyStr.startswith l s = true -> exists rest, strip true l s = Some rest.
Proof.
  revert s; induction l as [|a l IH]; intros [|b s]; simpl; try discriminate;
    eauto.
  intros E. apply andb_true_iff in E as [Eab Els].
  apply Ascii.eqb_eq in Eab; subst b.
  unfold char_eq. rewrite Ascii.eqb_refl. auto.
Qed.

(** A word followed by an optional group matches wherever the word stands. *)
Lemma match_here_with_subscription (word s : string) :
  PyStr.startswith word s = true ->
  match_here true (with_subscription word) s <> None.
Proof.
  intros E. destruct (strip_of_startswith _ _ E) as [rest Hrest].
  unfold match_here, with_subscription.
  cbn [run]. rewrite Hrest.
  match goal with |- match ?x with _ => _ end <> None => destruct x end;
    discriminate.
Qed.

(** [search] finds a pattern that matches wherever a given word stands, in
    every text that contains the word. *)
Lemma search_of_str_in (r : regex) (word : string) :
  (forall s, PyStr.startswith word s = true -> match_here true r s <> None) ->
  forall text, PyStr.str_in word text = true -> search true r text <> None.
Proof.
  intros Hr text; induction text as [|c text IH]; simpl; intros E.
  - rewrite orb_false_r in E. specialize (Hr _ E).
    destruct (match_here true r ""); congruence.
  - destruct (match_here true r (String c text)) eqn:Em; [discriminate|].
    apply orb_true_iff in E as [E|E].
    + exfalso. exact (Hr _ E Em).
    + auto.
Qed.

Lemma found_with_subscription (word text : string) :
  PyStr.str_in word text = true -> found (with_subscription word) text = true.
Proof.
  intros E. unfold found.
  pose proof (search_of_str_in (with_subscription word) word
                (match_here_with_subscription word) text E) as Hs.
  destruct (search true (with_subscription word) text); congruence.
Qed.

(** ** Billing frequency *)

(** C3: every text that contains both "annual" and "monthly" is classified
    "Monthly", because the Monthly pattern group is tried first. *)
Theorem C3_annual_and_monthly_is_monthly (text : string) :
  PyStr.str_in "annual" text = true ->
  PyStr.str_in "monthly" text = true ->
  extract_billing_frequency text = Some "Monthly".
Proof.
  intros _ Hmonthly. unfold extract_billing_frequency.
  assert (any_found monthly_patterns text = true) as ->; [|reflexivity].
  unfold any_found, monthly_patterns. cbn [existsb].
  rewrite (found_with_subscription "monthly" text Hmonthly). reflexivity.
Qed.

(** Without "monthly" the same text is annual: the order of the tests is what
    decides. *)
Example annual_alone_is_annual :
  extract_billing_frequency "annual plan, billed once" = Some "Annual" /\
  extract_billing_frequency "billed MONTHLY, or save with our annual plan"
  = Some "Monthly".
Proof. split; vm_compute; reflexivity. Qed.

Lemma C3_witness :
  PyStr.str_in "annual" "annual plan, billed monthly" = true /\
  PyStr.str_in "monthly" "annual plan, billed monthly" = true /\
  extract_billing_frequency "annual plan, billed monthly" = Some "Monthly".
Proof.
  split; [reflexivity|]. split; [reflexivity|].
  apply (C3_annual_and_monthly_is_monthly "annual plan, billed monthly");
    reflexivity.
Defined.

(** ** Currency amounts *)

#[local] Set Warnings "-inexact-float".

(** The three shapes are found whatever the letter case of the code or
    word. *)
Example shapes_found_in_any_case :
  map fst (extract_currency_amounts "$5, 6 €, 7 usd, 8 Gbp, 9 EUROS")
  = [5; 6; 7; 8; 9]%float.
Proof. vm_compute. reflexivity. Qed.

(** Codes written in capitals resolve, and so do the words "pounds" and
    "dollars" in any case. *)
Example capital_codes_and_words_resolve :
  extract_currency_amounts "10.99 GBP, 3 Pounds, 4 EUR, 5 EUROS, 6 DOLLARS"
  = [ (10.99, "GBP"); (3, "GBP"); (4, "EUR"); (5, "EUR"); (6, "USD") ]%float.
Proof. vm_compute. reflexivity. Qed.

(** In "5 euros" the alternative [EUR] matches the first three letters
    before the word alternative is tried, so the match text is "5 eur". *)
Example euros_match_text :
  map group0
      (finditer true
         (seqs [Group amount_digits; spaces;
                lits ["USD"; "GBP"; "EUR"; "dollars"; "pounds"; "euros"]])
         "5 euros")
  = ["5 eur"].
Proof. vm_compute. reflexivity. Qed.

(** The precedence of the currency test on a match text: symbols and
    capital codes are looked up as they are, words in the lowered text. *)
Lemma resolve_currency_precedence (g0 : string) :
  (PyStr.str_in "$" g0 = true \/ PyStr.str_in "USD" g0 = true \/
   PyStr.str_in "dollars" (PyStr.lower g0) = true ->
   resolve_currency g0 = "USD") /\
  (PyStr.str_in "$" g0 = false -> PyStr.str_in "USD" g0 = false ->
   PyStr.str_in "dollars" (PyStr.lower g0) = false ->
   (PyStr.str_in "£" g0 = true \/ PyStr.str_in "GBP" g0 = true \/
    PyStr.str_in "pounds" (PyStr.lower g0) = true ->
    resolve_currency g0 = "GBP") /\
   (PyStr.str_in "£" g0 = false -> PyStr.str_in "GBP" g0 = false ->
    PyStr.str_in "pounds" (PyStr.lower g0) = false ->
    (PyStr.str_in "€" g0 = true \/ PyStr.str_in "EUR" g0 = true \/
     PyStr.str_in "euros" (PyStr.lower g0) = true ->
     resolve_currency g0 = "EUR") /\
    (PyStr.str_in "€" g0 = false -> PyStr.str_in "EUR" g0 = false ->
     PyStr.str_in "euros" (PyStr.lower g0) = false ->
     resolve_currency g0 = "USD"))).
Proof.
  unfold resolve_currency. split.
  - intros [-> | [-> | ->]]; rewrite ?orb_true_r; reflexivity.
  - intros -> -> ->. split.
    + intros [-> | [-> | ->]]; rewrite ?orb_true_r; reflexivity.
    + intros -> -> ->. split.
      * intros [-> | [-> | ->]]; rewrite ?orb_true_r; reflexivity.
      * intros -> -> ->. reflexivity.
Qed.

(** C4: the symbol-prefixed amount of "Your bill: $12.50 due" is extracted as
    (12.50, USD); but a currency code in lower case, which the
    case-insensitive pattern matches, is not resolved by the precedence
    rule: "10.99 gbp" falls through to the USD default and so does the
    word in "5 euros", while the same texts in capitals give GBP and EUR. *)
Theorem C4_lowercase_code_falls_to_default :
  In (12.5%float, "USD") (extract_currency_amounts "Your bill: $12.50 due") /\
  extract_currency_amounts "10.99 gbp" = [(10.99%float, "USD")] /\
  extract_currency_amounts "10.99 GBP" = [(10.99%float, "GBP")] /\
  extract_currency_amounts "5 euros" = [(5%float, "USD")] /\
  extract_currency_amounts "5 EUROS" = [(5%float, "EUR")].
Proof.
  repeat split; try (vm_compute; reflexivity).
  vm_compute. left. reflexivity.
Qed.

(** ** Monthly cost *)

(** C5: the monthly cost is amount/12 when the lowered frequency contains
    "annual" or "yearly", otherwise amount/3 when it contains "quarterly",
    otherwise amount*4.33 when it contains "weekly", otherwise amount*30.42
    when it contains "daily", and the amount itself in every other case, the
    empty frequency included; 120 "Annual" gives 10.0, 30 "Weekly" gives
    129.9 and 9.99 "Monthly" gives 9.99. *)
Theorem C5_calculate_monthly_cost (amount : float) (frequency : string) :
  calculate_monthly_cost amount frequency =
    (let f := PyStr.lower frequency in
     if PyStr.str_in "annual" f || PyStr.str_in "yearly" f then amount / 12
     else if PyStr.str_in "quarterly" f then amount / 3
     else if PyStr.str_in "weekly" f then amount * 4.33
     else if PyStr.str_in "daily" f then amount * 30.42
     else amount)%float
  /\ calculate_monthly_cost amount "" = amount
  /\ calculate_monthly_cost amount "Unknown" = amount
  /\ calculate_monthly_cost 120 "Annual" = 10%float
  /\ calculate_monthly_cost 30 "Weekly" = 129.9%float
  /\ calculate_monthly_cost 9.99 "Monthly" = 9.99%float.
Proof.
  repeat split; try reflexivity.
  unfold calculate_monthly_cost. destruct frequency; reflexivity.
Qed.

(** ** Records built from emails *)

Lemma hasattr_extractors (email : Email) :
  hasattr email "extract_currency_amounts" = false /\
  hasattr email "extract_billing_frequency" = false.
Proof. split; reflexivity. Qed.

Lemma mapM_Ok {A B : Type} (f : A -> M B) (l : list A) (n n' : nat)
  (bs : list B) :
  mapM f l n = Ok (bs, n') ->
  forall b, In b bs -> exists a k k', In a l /\ f a k = Ok (b, k').
Proof.
  revert n bs; induction l as [|a l IH]; intros n bs; simpl.
  - unfold ret. intros [= <- _] b [].
  - unfold bind at 1. destruct (f a n) as [[b0 n0]|e] eqn:Ea; [|discriminate].
    unfold bind at 1. destruct (mapM f l n0) as [[bs0 n1]|e] eqn:El;
      [|discriminate].
    unfold ret. intros [= <- <-] b [<-|Hb].
    + exists a, n, n0. auto.
    + destruct (IH _ _ El b Hb) as (a' & k & k' & Ha' & Hf).
      exists a', k, k'. auto.
Qed.

(** Whatever the emails and the host, no record ever carries an amount: the
    attribute test on the email dictionary fails, so the extractor is not
    called. *)
Lemma analyze_service_amount `{Host} (entry : string * list Email)
  (n n' : nat) (r : Subscription) :
  analyze_service entry n = Ok (r, n') ->
  amount r = None /\ monthly_cost r = None /\ currency r = "USD".
Proof.
  destruct entry as [name l]. unfold analyze_service.
  unfold bind at 1.
  destruct (index0 (sort_newest_first l) n) as [[latest n0]|e]; [|discriminate].
  unfold bind at 1, lift.
  destruct (fromtimestamp (timestamp_of latest)) as [d|e]; [|discriminate].
  cbn [hasattr PyStr.mem existsb]. change (select_amount []) with (@None float, "USD").
  cbv iota beta.
  destruct (detect_free_trial _) as [trial trial_end].
  unfold bind, is_subscription_active, datetime_now, ret.
  intros [= <- _]. auto.
Qed.

Lemma analyze_never_extracts_amount `{Host} (emails : list Email)
  (n n' : nat) (records : list Subscription) :
  analyze_subscription_emails emails n = Ok (records, n') ->
  forall r, In r records -> amount r = None /\ monthly_cost r = None.
Proof.
  intros Hrun r Hr.
  destruct (mapM_Ok _ _ _ _ _ Hrun r Hr) as (entry & k & k' & _ & Hentry).
  destruct (analyze_service_amount _ _ _ _ Hentry) as (? & ? & _). auto.
Qed.

(** C1: for the message whose body is "Your bill: $12.50 due" the extractor
    finds (12.50, USD), yet the record built from that message has no amount
    and no monthly cost: the builder never runs the extractor. *)
Theorem C1_extracted_amount_never_reaches_record :
  extract_currency_amounts (get (e_body_text Samples.bill) "")
  = [(12.5%float, "USD")] /\
  SubscriptionAnalyzer.select_amount [(12.5%float, "USD")]
  = (Some 12.5%float, "USD") /\
  exists r n,
    @buildSubscriptionRecords (Samples.utc_host Samples.new_year_2025)
      [Samples.bill] 0%nat = Ok ([r], n) /\
    service_name r = "Netflix" /\
    latest_email_id r = Some "m1" /\
    amount r = None /\
    monthly_cost r = None.
Proof.
  split; [vm_compute; reflexivity|].
  split; [vm_compute; reflexivity|].
  eexists; eexists. split; [vm_compute; reflexivity|].
  repeat split.
Qed.

(** With a sender field that is empty and a subject naming no provider the
    sentinel is returned. *)
Lemma extract_service_name_sentinel (e : Email) :
  get (e_from e) "" = "" ->
  provider_in_subject service_providers (get (e_subject e) "") = None ->
  extract_service_name e = "Unknown Service".
Proof.
  intros Hfrom Hsubj. unfold extract_service_name, name_from_subject.
  rewrite Hfrom, Hsubj. reflexivity.
Qed.

(** C2: a message from [empty_display_name], a sender whose quoted display
    name is empty and whose address is on a webmail domain, with a subject
    naming no provider, offers no service identity; its record nevertheless
    has the empty string as service name, not "Unknown Service".  The
    analyzer's own default, used for a message that carries no name yet,
    is blank as well when the sender field holds no address. *)
Theorem C2_blank_service_name :
  extract_service_name Samples.nameless = "" /\
  (exists r n,
      @buildSubscriptionRecords (Samples.utc_host Samples.new_year_2025)
        [Samples.nameless] 0%nat = Ok ([r], n) /\
      service_name r = "") /\
  (exists r n,
      @analyze_subscription_emails (Samples.utc_host Samples.new_year_2025)
        [Samples.no_address] 0%nat = Ok ([r], n) /\
      service_name r = "").
Proof.
  split; [reflexivity|]. split.
  - eexists; eexists. split; [vm_compute; reflexivity|]. reflexivity.
  - eexists; eexists. split; [vm_compute; reflexivity|]. reflexivity.
Qed.

(** C6: the empty message list gives the empty record list without raising,
    and the report over no records has zero counts, zero costs, no category
    and empty trial and unused lists. *)
Theorem C6_empty_input `{Host} (n : nat) (now : datetime) :
  buildSubscriptionRecords [] n = Ok ([], n) /\
  analyze_subscription_emails [] n = Ok ([], n) /\
  summarize [] now =
    {| total_subscriptions := 0;
       active_subscriptions := 0;
       total_monthly_cost := 0%float;
       annual_projection := 0%float;
       categories := [];
       trials_ending_soon := [];
       unused_subscriptions := [] |} /\
  generate_summary_report [] n = Ok (summarize [] (clock n), S n).
Proof. repeat split. Qed.

(** ** Freshness and trial windows *)

(** Whole days at most [k] means less than [k + 1] days. *)
Lemma days_le_iff (delta k : Z) :
  (days delta <= k <-> delta < days_delta (k + 1))%Z.
Proof.
  unfold days, days_delta, day_us.
  pose proof (Z.div_mod delta 86400000000 ltac:(lia)) as Hdm.
  pose proof (Z.mod_pos_bound delta 86400000000 ltac:(lia)) as Hb.
  lia.
Qed.

Lemma days_leb_ltb (delta k : Z) :
  (days delta <=? k)%Z = (delta <? days_delta (k + 1))%Z.
Proof.
  destruct (Z.leb_spec (days delta) k) as [Hle|Hgt];
    destruct (Z.ltb_spec delta (days_delta (k + 1))) as [Hlt|Hge];
    try reflexivity; exfalso.
  - apply days_le_iff in Hle. lia.
  - apply days_le_iff in Hlt. lia.
Qed.

(** C7, as stated, fails: one hour past the sixtieth day the subscription is
    still reported active although more than 60 days have elapsed. *)
Lemma C7_counterexample :
  let last := Samples.new_year_2025 in
  let now := (last + days_delta 60 + Samples.hour_us)%Z in
  @is_subscription_active (Samples.utc_host now) last 60 0%nat
  = Ok (true, 1%nat) /\
  ~ (now - last <= days_delta 60)%Z.
Proof.
  split; [vm_compute; reflexivity|].
  unfold days_delta, day_us, Samples.hour_us, Samples.new_year_2025. lia.
Qed.

(** C7, amended: the subscription is active exactly when the whole number of
    days elapsed since the last message is at most 60, that is when less
    than 61 days have elapsed; exactly 60 days is active, 90 days is
    inactive and 10 days is active. *)
Theorem C7_active_iff_whole_days_at_most_60 `{Host} (last : datetime)
  (n : nat) :
  (exists b,
      is_subscription_active last 60 n = Ok (b, S n) /\
      (b = true <-> (days (clock n - last) <= 60)%Z) /\
      (b = true <-> (clock n - last < days_delta 61)%Z)) /\
  is_subscription_active (clock n - days_delta 60)%Z 60 n = Ok (true, S n) /\
  is_subscription_active (clock n - days_delta 90)%Z 60 n = Ok (false, S n) /\
  is_subscription_active (clock n - days_delta 10)%Z 60 n = Ok (true, S n).
Proof.
  assert (forall d, is_subscription_active (clock n - d)%Z 60 n
                    = Ok ((d <? days_delta 61)%Z, S n)) as Hd.
  { intros d. unfold is_subscription_active, bind, datetime_now, ret.
    rewrite days_leb_ltb. do 3 f_equal. lia. }
  split; [|repeat split; rewrite Hd; reflexivity].
  exists (days (clock n - last) <=? 60)%Z. split; [reflexivity|].
  split.
  - apply Z.leb_le.
  - rewrite Z.leb_le. apply days_le_iff.
Qed.

(** Membership in the trial list, by the code's own test. *)
Lemma trial_ending_soon_iff (now : datetime) (s : Subscription) :
  trial_ending_soon now s = true <->
  get (is_free_trial s) false = true /\
  exists trial_end,
    trial_end_date s = Some trial_end /\
    (now < trial_end)%Z /\
    (trial_end - now < days_delta 15)%Z.
Proof.
  unfold trial_ending_soon. rewrite andb_true_iff.
  destruct (trial_end_date s) as [t|].
  - rewrite andb_true_iff, Z.ltb_lt, Z.leb_le, days_le_iff. split.
    + intros (Hf & Hlt & Hd). split; [exact Hf|]. exists t. auto.
    + intros (Hf & t' & [= <-] & Hlt & Hd). auto.
  - split; [intros [_ [=]]|intros (_ & t' & [=] & _)].
Qed.

(** C8, as stated, fails: a trial ending 14 days and one hour from now is
    listed although its end is more than 14 days after now. *)
Lemma C8_counterexample :
  let now := Samples.new_year_2025 in
  let trial_end := (now + days_delta 14 + Samples.hour_us)%Z in
  let s := Samples.record "Hulu" true now true (Some trial_end) in
  trials_ending_soon (summarize [s] now) = [s] /\
  ~ (trial_end - now <= days_delta 14)%Z.
Proof.
  split; [vm_compute; reflexivity|].
  unfold days_delta, day_us, Samples.hour_us, Samples.new_year_2025. lia.
Qed.

(** C8, amended: a record is in the list of trials ending soon exactly when
    it is a free trial, its trial end date is present and strictly after
    now, and the whole number of days from now to that date is at most 14,
    that is the date is less than 15 days after now; a trial ending in 5
    days is listed, one ending in 20 days is not. *)
Theorem C8_trials_ending_soon (now : datetime) (subs : list Subscription)
  (s : Subscription) :
  (In s (trials_ending_soon (summarize subs now)) <->
   In s subs /\
   get (is_free_trial s) false = true /\
   exists trial_end,
     trial_end_date s = Some trial_end /\
     (now < trial_end)%Z /\
     (trial_end - now < days_delta 15)%Z) /\
  (let five := Samples.record "A" true now true (Some (now + days_delta 5)%Z) in
   trials_ending_soon (summarize [five] now) = [five]) /\
  (let twenty := Samples.record "B" true now true (Some (now + days_delta 20)%Z) in
   trials_ending_soon (summarize [twenty] now) = []).
Proof.
  split; [|split].
  - cbn [summarize summary_at trials_ending_soon].
    rewrite filter_In, trial_ending_soon_iff. tauto.
  - intros five.
    assert (trial_ending_soon now five = true) as Hin.
    { apply trial_ending_soon_iff. split; [reflexivity|].
      exists (now + days_delta 5)%Z. unfold days_delta, day_us.
      repeat split; lia. }
    cbn [summarize summary_at trials_ending_soon filter]. rewrite Hin.
    reflexivity.
  - intros twenty.
    assert (trial_ending_soon now twenty = false) as Hout.
    { destruct (trial_ending_soon now twenty) eqn:E; [|reflexivity].
      apply trial_ending_soon_iff in E as (_ & t & [= <-] & _ & Hd).
      unfold days_delta, day_us in Hd. lia. }
    cbn [summarize summary_at trials_ending_soon filter]. rewrite Hout.
    reflexivity.
Qed.

(** An active record is never older than the unused threshold when its flag
    tells the truth about the elapsed time. *)
Lemma filter_none {A : Type} (f : A -> bool) (l : list A) :
  (forall x, In x l -> f x = false) -> filter f l = [].
Proof.
  induction l as [|a l IH]; intros Hf; [reflexivity|].
  simpl. rewrite (Hf a (or_introl eq_refl)). apply IH.
  intros x Hx. apply Hf. right. exact Hx.
Qed.

Lemma no_unused_among_recent (now : datetime) (subs : list Subscription) :
  (forall s, In s subs -> get (is_active s) false = true ->
             (days (now - get (last_email_date s) now) <= 60)%Z) ->
  unused_subscriptions (summary_at now subs) = [].
Proof.
  intros Hrecent. cbn [summary_at unused_subscriptions].
  apply filter_none. intros s Hs.
  unfold active_only in Hs. apply filter_In in Hs as [Hs Hact].
  unfold unused, unused_threshold.
  rewrite Z.gtb_ltb. apply Z.ltb_ge. auto.
Qed.

(** The same holds when the flags were computed by the code's own test,
    [is_subscription_active], at the reading of the clock the report uses. *)
Lemma no_unused_when_flags_follow_the_code `{Host} (n : nat)
  (subs : list Subscription) :
  (forall s, In s subs ->
     exists last,
       last_email_date s = Some last /\
       is_subscription_active last 60 n = Ok (get (is_active s) false, S n)) ->
  exists report,
    generate_summary_report subs n = Ok (report, S n) /\
    unused_subscriptions report = [].
Proof.
  intros Hflags. eexists. split; [reflexivity|].
  apply no_unused_among_recent. intros s Hs Hact.
  destruct (Hflags s Hs) as (last & Hlast & Hrun).
  rewrite Hlast. cbn [get].
  unfold is_subscription_active, bind, datetime_now, ret in Hrun.
  injection Hrun as Hb. rewrite Hact in Hb. apply Z.leb_le. exact Hb.
Qed.

(** C10: when the active flag of every record is the freshness predicate at
    the instant the report is computed for (active exactly when at most 60
    days have elapsed since the last message), the report lists no unused
    subscription. *)
Theorem C10_no_unused_when_flags_are_fresh (now : datetime)
  (subs : list Subscription) :
  (forall s, In s subs ->
     (get (is_active s) false = true <->
      (now - get (last_email_date s) now <= days_delta 60)%Z)) ->
  unused_subscriptions (summarize subs now) = [].
Proof.
  intros Hfresh. apply no_unused_among_recent. intros s Hs Hact.
  apply (Hfresh s Hs) in Hact.
  apply days_le_iff. unfold days_delta, day_us in *. lia.
Qed.

Lemma sample_flags_are_fresh :
  let now := Samples.new_year_2025 in
  forall s,
    In s [ Samples.record "Netflix" true (now - days_delta 10)%Z false None;
           Samples.record "Hulu" false (now - days_delta 90)%Z false None ] ->
    (get (is_active s) false = true <->
     (now - get (last_email_date s) now <= days_delta 60)%Z).
Proof.
  intros now s [<-|[<-|[]]]; cbn; split; intros Hs; try reflexivity;
    vm_compute in Hs |- *; try discriminate.
  exfalso. apply Hs. reflexivity.
Defined.

Lemma C10_witness :
  let now := Samples.new_year_2025 in
  let subs :=
    [ Samples.record "Netflix" true (now - days_delta 10)%Z false None;
      Samples.record "Hulu" false (now - days_delta 90)%Z false None ] in
  active_subscriptions (summarize subs now) = 1%nat /\
  unused_subscriptions (summarize subs now) = [].
Proof.
  split; [reflexivity|].
  apply (C10_no_unused_when_flags_are_fresh Samples.new_year_2025).
  exact sample_flags_are_fresh.
Defined.

(** ** The representative message of a service group *)

Lemma insert_newest_first_length (e : Email) (l : list Email) :
  List.length (insert_newest_first e l) = S (List.length l).
Proof.
  induction l as [|x l IH]; [reflexivity|].
  simpl. destruct (Qle_bool (timestamp_of x) (timestamp_of e)); simpl; auto.
Qed.

Lemma sort_newest_first_length (l : list Email) :
  List.length (sort_newest_first l) = List.length l.
Proof.
  induction l as [|a l IH]; [reflexivity|].
  simpl. rewrite insert_newest_first_length. auto.
Qed.

Lemma first_newest_max (group : list Email) (rep : Email) :
  first_newest group rep ->
  In rep group /\
  forall m, In m group -> (timestamp_of m <= timestamp_of rep)%Q.
Proof.
  intros (before & after & -> & Hb & Ha). split.
  - apply in_or_app. right. left. reflexivity.
  - intros m Hm. apply in_app_or in Hm as [Hm|[<-|Hm]].
    + apply Qlt_le_weak. auto.
    + apply Qle_refl.
    + auto.
Qed.

(** The sorted list starts with the first of the newest messages. *)
Lemma sort_newest_first_head (group : list Email) :
  group <> [] ->
  exists rep rest,
    sort_newest_first group = rep :: rest /\ first_newest group rep.
Proof.
  induction group as [|a l IH]; [congruence|]. intros _.
  destruct l as [|b l'].
  - exists a, []. split; [reflexivity|].
    exists [], []. repeat split; intros m [].
  - destruct IH as (rep' & rest' & Hsort & before & after & Hl & Hb & Ha);
      [discriminate|].
    change (sort_newest_first (a :: b :: l'))
      with (insert_newest_first a (sort_newest_first (b :: l'))).
    rewrite Hsort. cbn [insert_newest_first].
    destruct (Qle_bool (timestamp_of rep') (timestamp_of a)) eqn:E.
    + apply Qle_bool_iff in E.
      exists a, (rep' :: rest'). split; [reflexivity|].
      exists [], (b :: l'). split; [reflexivity|]. split; [intros m []|].
      intros m Hm. rewrite Hl in Hm.
      apply Qle_trans with (timestamp_of rep'); [|exact E].
      apply in_app_or in Hm as [Hm|[<-|Hm]].
      * apply Qlt_le_weak. auto.
      * apply Qle_refl.
      * auto.
    + assert (timestamp_of a < timestamp_of rep')%Q as Hlt.
      { apply Qnot_le_lt. intros Hle. apply Qle_bool_iff in Hle. congruence. }
      exists rep', (insert_newest_first a rest'). split; [reflexivity|].
      exists (a :: before), after. rewrite Hl. split; [reflexivity|].
      split; [|exact Ha].
      intros m [<-|Hm]; auto.
Qed.

Lemma analyze_service_representative `{Host} (name : string)
  (group : list Email) (rep : Email) (rest : list Email) (n n' : nat)
  (r : Subscription) :
  sort_newest_first group = rep :: rest ->
  analyze_service (name, group) n = Ok (r, n') ->
  service_name r = name /\
  latest_email_id r = e_id rep /\
  email_count r = List.length group /\
  fromtimestamp (timestamp_of rep) = Ok (get (last_email_date r) 0%Z).
Proof.
  intros Hsort. unfold analyze_service.
  rewrite <- (sort_newest_first_length group), Hsort.
  unfold bind at 1. cbn [index0 ret].
  unfold bind at 1, lift.
  destruct (fromtimestamp (timestamp_of rep)) as [d|e]; [|discriminate].
  destruct (select_amount _) as [a c].
  destruct (detect_free_trial _) as [trial trial_end].
  unfold bind, is_subscription_active, datetime_now, ret.
  intros [= <- _]. cbn. auto.
Qed.

(** C9: in a non-empty service group the representative, the head of the
    group sorted newest first, is a message of the group that no message
    of the group is newer than, and every message standing before it in the
    group's original order is strictly older; the record built for the group
    carries that message's id. *)
Theorem C9_representative_is_first_newest `{Host} (name : string)
  (group : list Email) (n : nat) :
  group <> [] ->
  exists rep,
    index0 (sort_newest_first group) n = Ok (rep, n) /\
    first_newest group rep /\
    In rep group /\
    (forall m, In m group -> (timestamp_of m <= timestamp_of rep)%Q) /\
    (forall r n', analyze_service (name, group) n = Ok (r, n') ->
                  latest_email_id r = e_id rep /\
                  email_count r = List.length group).
Proof.
  intros Hne.
  destruct (sort_newest_first_head group Hne) as (rep & rest & Hsort & Hfirst).
  exists rep. rewrite Hsort. split; [reflexivity|]. split; [exact Hfirst|].
  destruct (first_newest_max _ _ Hfirst) as [Hin Hmax].
  split; [exact Hin|]. split; [exact Hmax|].
  intros r n' Hrun.
  destruct (analyze_service_representative _ _ _ _ _ _ _ Hsort Hrun)
    as (_ & ? & ? & _).
  auto.
Qed.

Lemma C9_witness :
  Samples.tie_group <> [] /\
  exists rep,
    @index0 Email (sort_newest_first Samples.tie_group) 0%nat = Ok (rep, 0%nat) /\
    first_newest Samples.tie_group rep /\
    In rep Samples.tie_group /\
    (forall m, In m Samples.tie_group ->
               (timestamp_of m <= timestamp_of rep)%Q) /\
    (forall r n',
        @analyze_service (Samples.utc_host Samples.new_year_2025)
          ("Netflix", Samples.tie_group) 0%nat = Ok (r, n') ->
        latest_email_id r = e_id rep /\
        email_count r = List.length Samples.tie_group).
Proof.
  split; [discriminate|].
  apply (@C9_representative_is_first_newest
           (Samples.utc_host Samples.new_year_2025)
           "Netflix" Samples.tie_group 0%nat).
  discriminate.
Defined.

(** Of two messages with the newest timestamp the earlier one in the group
    is chosen. *)
Example tie_keeps_first_encountered :
  exists r n,
    @analyze_subscription_emails (Samples.utc_host Samples.new_year_2025)
      Samples.tie_group 0%nat = Ok ([r], n) /\
    latest_email_id r = Some "second" /\
    email_count r = 3%nat.
Proof.
  eexists; eexists. split; [vm_compute; reflexivity|]. split; reflexivity.
Qed.

(** ** Grouping by service *)

(** Sender domains that differ only in letter case are filed together. *)
Example domains_grouped_whatever_the_case :
  map (fun entry => (fst entry, List.length (snd entry)))
      (group_by_service
         (map annotate
              [ Samples.email "a" "billing@netflix.com" "Receipt" "" 100;
                Samples.email "b" "billing@NETFLIX.COM" "Receipt" "" 200 ]))
  = [("Netflix", 2%nat)].
Proof. vm_compute. reflexivity. Qed.

Lemma lookup_dict_append (k key : string) (e : Email)
  (d : list (string * list Email)) :
  lookup k (dict_append key e d) =
  if String.eqb key k then Some (get (lookup key d) [] ++ [e])
  else lookup k d.
Proof.
  induction d as [|[k' g] d IH]; cbn [dict_append lookup get].
  - destruct (String.eqb key k); reflexivity.
  - destruct (String.eqb k' key) eqn:Ek'; cbn [lookup get].
    + apply String.eqb_eq in Ek'; subst k'.
      destruct (String.eqb key k); reflexivity.
    + rewrite IH. destruct (String.eqb k' k) eqn:Ek; [|reflexivity].
      apply String.eqb_eq in Ek; subst k'.
      rewrite String.eqb_sym, Ek'. reflexivity.
Qed.

Lemma keys_dict_append (key : string) (e : Email)
  (d : list (string * list Email)) (k : string) :
  In k (map fst (dict_append key e d)) <-> k = key \/ In k (map fst d).
Proof.
  induction d as [|[k' g] d IH]; cbn [dict_append map fst In].
  - intuition.
  - destruct (String.eqb k' key) eqn:Ek'; cbn [map fst In].
    + apply String.eqb_eq in Ek'; subst k'. intuition.
    + rewrite IH. intuition.
Qed.

Lemma NoDup_dict_append (key : string) (e : Email)
  (d : list (string * list Email)) :
  NoDup (map fst d) -> NoDup (map fst (dict_append key e d)).
Proof.
  induction d as [|[k' g] d IH]; cbn [dict_append map fst]; intros Hnd.
  - constructor; [intros []|constructor].
  - inversion Hnd as [|? ? Hnotin Hnd']; subst.
    destruct (String.eqb k' key) eqn:Ek'; cbn [map fst].
    + constructor; assumption.
    + constructor; [|auto].
      rewrite keys_dict_append. intros [->|Hin]; [|contradiction].
      rewrite String.eqb_refl in Ek'. discriminate.
Qed.

Lemma In_lookup (d : list (string * list Email)) (k : string)
  (g : list Email) :
  NoDup (map fst d) -> (In (k, g) d <-> lookup k d = Some g).
Proof.
  induction d as [|[k' g'] d IH]; cbn [map fst In lookup]; intros Hnd.
  - split; [intros []|discriminate].
  - inversion Hnd as [|? ? Hnotin Hnd']; subst.
    destruct (String.eqb k' k) eqn:Ek.
    + apply String.eqb_eq in Ek; subst k'. split.
      * intros [[= ->]|Hin]; [reflexivity|].
        exfalso. apply Hnotin. apply (in_map fst) in Hin. exact Hin.
      * intros [= ->]. left. reflexivity.
    + rewrite <- (IH Hnd'). split.
      * intros [[= -> _]|Hin]; [|exact Hin].
        rewrite String.eqb_refl in Ek. discriminate.
      * intros Hin. right. exact Hin.
Qed.

Lemma get_nonempty (g : list Email) : get (nonempty g) [] = g.
Proof. destruct g; reflexivity. Qed.

Lemma group_fold_inv (emails processed : list Email)
  (d : list (string * list Email)) :
  NoDup (map fst d) ->
  (forall k, lookup k d = nonempty (filed_under k processed)) ->
  let d' :=
    fold_left (fun d email => dict_append (service_key email) email d)
              emails d in
  NoDup (map fst d') /\
  forall k, lookup k d' = nonempty (filed_under k (processed ++ emails)).
Proof.
  revert processed d; induction emails as [|e emails IH];
    intros processed d Hnd Hd; cbn [fold_left].
  - rewrite app_nil_r. auto.
  - replace (processed ++ e :: emails) with ((processed ++ [e]) ++ emails)
      by (rewrite <- app_assoc; reflexivity).
    apply IH; [apply NoDup_dict_append; exact Hnd|].
    intros k. rewrite lookup_dict_append, Hd, get_nonempty.
    unfold filed_under. rewrite filter_app. cbn [filter].
    destruct (String.eqb (service_key e) k) eqn:Ek.
    + apply String.eqb_eq in Ek; subst k.
      destruct (filter _ processed); reflexivity.
    + rewrite app_nil_r. apply Hd.
Qed.

(** The groups are exactly the non-empty classes of the input under the
    service key, each in the input's order, one per key. *)
Lemma group_by_service_spec (emails : list Email) (k : string)
  (g : list Email) :
  NoDup (map fst (group_by_service emails)) /\
  (In (k, g) (group_by_service emails) <->
   g <> [] /\ g = filed_under k emails).
Proof.
  destruct (group_fold_inv emails [] [] (NoDup_nil _) (fun _ => eq_refl))
    as [Hnd Hlook].
  fold (group_by_service emails) in Hnd, Hlook. cbn [app] in Hlook.
  split; [exact Hnd|].
  rewrite (In_lookup _ _ _ Hnd), Hlook.
  destruct (filed_under k emails) as [|e l]; cbn [nonempty]; split.
  - discriminate.
  - intros [Hne ->]. congruence.
  - intros [= <-]. split; [discriminate|reflexivity].
  - intros [_ ->]. reflexivity.
Qed.

(** Every group that reaches the builder's loop has a representative. *)
Lemma every_group_has_representative `{Host} (emails : list Email)
  (name : string) (group : list Email) (n : nat) :
  In (name, group) (group_by_service emails) ->
  exists rep,
    index0 (sort_newest_first group) n = Ok (rep, n) /\
    first_newest (filed_under name emails) rep.
Proof.
  intros Hin. apply group_by_service_spec in Hin as [Hne Hg].
  destruct (sort_newest_first_head group Hne) as (rep & rest & Hsort & Hfirst).
  exists rep. rewrite Hsort. split; [reflexivity|]. rewrite <- Hg. exact Hfirst.
Qed.

(** * Further properties *)

Import Dedup AgentTools MoreNotions.

(** ** Case-insensitive search is a search in the lowered text *)

Lemma lower_char_idempotent (c : ascii) :
  PyStr.lower_char (PyStr.lower_char c) = PyStr.lower_char c.
Proof.
  destruct c as [[] [] [] [] [] [] [] []]; reflexivity.
Qed.

Lemma lower_idempotent (s : string) : PyStr.lower (PyStr.lower s) = PyStr.lower s.
Proof.
  induction s as [|c s IH]; [reflexivity|].
  simpl. rewrite lower_char_idempotent, IH. reflexivity.
Qed.

(** The literal [w] stands at the head of [s], letter case ignored, exactly
    when the lowered [w] heads the lowered [s]. *)
Lemma strip_iff_startswith_lower (w s : string) :
  (strip true w s <> None) <->
  PyStr.startswith (PyStr.lower w) (PyStr.lower s) = true.
Proof.
  revert s; induction w as [|a w IH]; intros [|b s]; simpl.
  - split; [reflexivity|discriminate].
  - split; [reflexivity|discriminate].
  - split; [congruence|discriminate].
  - unfold char_eq.
    destruct (Ascii.eqb (PyStr.lower_char a) (PyStr.lower_char b)); simpl.
    + apply IH.
    + split; [congruence|discriminate].
Qed.

Lemma any_suffix_ext (t1 t2 : string -> bool) (s : string) :
  (forall x, t1 x = t2 x) -> any_suffix t1 s = any_suffix t2 s.
Proof.
  intros E. induction s as [|c s IH]; simpl; rewrite E; [reflexivity|].
  rewrite IH. reflexivity.
Qed.

Lemma any_suffix_orb (t1 t2 : string -> bool) (s : string) :
  any_suffix (fun x => t1 x || t2 x) s = any_suffix t1 s || any_suffix t2 s.
Proof.
  induction s as [|c s IH]; simpl.
  - rewrite !orb_false_r. reflexivity.
  - rewrite IH.
    destruct (t1 (String c s)), (t2 (String c s)), (any_suffix t1 s); reflexivity.
Qed.

Lemma str_in_lower_any_suffix (w s : string) :
  PyStr.str_in w (PyStr.lower s)
  = any_suffix (fun x => PyStr.startswith w (PyStr.lower x)) s.
Proof.
  induction s as [|c s IH]; simpl; [reflexivity|].
  rewrite IH. reflexivity.
Qed.

(** [found] is decided suffix by suffix. *)
Lemma found_any_suffix (r : regex) (t : string -> bool) :
  (forall s, match_here true r s <> None <-> t s = true) ->
  forall text, found r text = any_suffix t text.
Proof.
  intros Hr text. unfold found.
  induction text as [|c text IH]; simpl.
  - destruct (match_here true r "") eqn:E.
    + symmetry. rewrite orb_false_r. apply Hr. congruence.
    + rewrite orb_false_r. destruct (t "") eqn:Et; [|reflexivity].
      apply Hr in Et. congruence.
  - destruct (match_here true r (String c text)) eqn:E.
    + assert (t (String c text) = true) as -> by (apply Hr; congruence).
      reflexivity.
    + destruct (t (String c text)) eqn:Et.
      * apply Hr in Et. congruence.
      * exact IH.
Qed.

Lemma match_here_Lit (w s : string) :
  match_here true (Lit w) s <> None
  <-> PyStr.startswith (PyStr.lower w) (PyStr.lower s) = true.
Proof.
  rewrite <- strip_iff_startswith_lower. unfold match_here. cbn [run].
  destruct (strip true w s); split; congruence.
Qed.

Lemma match_here_with_subscription_iff (w s : string) :
  match_here true (with_subscription w) s <> None
  <-> PyStr.startswith (PyStr.lower w) (PyStr.lower s) = true.
Proof.
  rewrite <- strip_iff_startswith_lower.
  unfold match_here, with_subscription. cbn [run].
  destruct (strip true w s) as [rest|]; [|split; congruence].
  split; [congruence|]. intros _.
  match goal with |- match ?x with _ => _ end <> None => destruct x end;
    discriminate.
Qed.

Lemma match_here_Alt (r1 r2 : regex) (s : string) :
  match_here true (Alt r1 r2) s <> None
  <-> match_here true r1 s <> None \/ match_here true r2 s <> None.
Proof.
  unfold match_here. cbn [run].
  match goal with |- context [match ?x with Some y => Some y | None => _ end] =>
    destruct x end.
  - split; [left|]; congruence.
  - split; [right; assumption|intros [E|E]; congruence].
Qed.

(** A literal is found, letter case ignored, exactly when its lowered text
    occurs in the lowered text. *)
Lemma found_Lit (w text : string) :
  found (Lit w) text = PyStr.str_in (PyStr.lower w) (PyStr.lower text).
Proof.
  rewrite str_in_lower_any_suffix. apply found_any_suffix.
  intros s. apply match_here_Lit.
Qed.

Lemma found_with_subscription_eq (w text : string) :
  found (with_subscription w) text
  = PyStr.str_in (PyStr.lower w) (PyStr.lower text).
Proof.
  rewrite str_in_lower_any_suffix. apply found_any_suffix.
  intros s. apply match_here_with_subscription_iff.
Qed.

Lemma found_Alt (r1 r2 : regex) (text : string) :
  found (Alt r1 r2) text = found r1 text || found r2 text.
Proof.
  set (t1 := fun s => match match_here true r1 s with Some _ => true | None => false end).
  set (t2 := fun s => match match_here true r2 s with Some _ => true | None => false end).
  rewrite (found_any_suffix r1 t1), (found_any_suffix r2 t2),
    (found_any_suffix (Alt r1 r2) (fun x => t1 x || t2 x)).
  - apply any_suffix_orb.
  - intros s. rewrite match_here_Alt, orb_true_iff. unfold t1, t2.
    destruct (match_here true r1 s), (match_here true r2 s);
      split; intros; try tauto; try (left; congruence); try (right; congruence).
    destruct H as [H|H]; congruence.
  - intros s. unfold t2. destruct (match_here true r2 s); split; congruence.
  - intros s. unfold t1. destruct (match_here true r1 s); split; congruence.
Qed.

(** ** Frequency and trial detection, read off the lowered text *)

Lemma any_found_case_blind (group : list regex) (t1 t2 : string) :
  (forall p, In p group -> found p t1 = found p t2) ->
  any_found group t1 = any_found group t2.
Proof.
  unfold any_found. induction group as [|p group IH]; intros Hg;
    [reflexivity|].
  cbn [existsb]. rewrite (Hg p (or_introl eq_refl)), IH; [reflexivity|].
  intros q Hq. apply Hg. right. exact Hq.
Qed.

Ltac case_blind_patterns Hlow :=
  let p := fresh "p" in
  let Hp := fresh "Hp" in
  intros p Hp; cbn [In] in Hp;
  repeat (destruct Hp as [<-|Hp];
          [rewrite ?found_Lit, ?found_with_subscription_eq, Hlow; reflexivity|]);
  destruct Hp.

(** Replace the lowering of a literal by its value. *)
Ltac lower_literals :=
  repeat match goal with
         | |- context [PyStr.lower ?w] =>
             tryif is_var w then fail
             else (let w' := eval vm_compute in (PyStr.lower w) in
                   change (PyStr.lower w) with w')
         end.

(** X1: The billing frequency read from a text does not depend on the letter
    case of the text. *)
Theorem extract_billing_frequency_case_blind (t1 t2 : string) :
  PyStr.lower t1 = PyStr.lower t2 ->
  extract_billing_frequency t1 = extract_billing_frequency t2.
Proof.
  intros Hlow. unfold extract_billing_frequency.
  rewrite (any_found_case_blind monthly_patterns t1 t2)
    by (unfold monthly_patterns; case_blind_patterns Hlow).
  rewrite (any_found_case_blind annual_patterns t1 t2)
    by (unfold annual_patterns; case_blind_patterns Hlow).
  rewrite (any_found_case_blind quarterly_patterns t1 t2)
    by (unfold quarterly_patterns; case_blind_patterns Hlow).
  rewrite (any_found_case_blind weekly_patterns t1 t2)
    by (unfold weekly_patterns; case_blind_patterns Hlow).
  reflexivity.
Qed.

Lemma extract_billing_frequency_case_blind_witness :
  PyStr.lower "Billed EVERY Year" = PyStr.lower "billed every year" /\
  extract_billing_frequency "Billed EVERY Year"
  = extract_billing_frequency "billed every year".
Proof.
  split; [reflexivity|].
  apply (extract_billing_frequency_case_blind "Billed EVERY Year"
           "billed every year").
  reflexivity.
Defined.


Lemma monthly_test (text : string) :
  found (lits ["monthly"; "per month"; "/month"]) text =
  PyStr.str_in "monthly" (PyStr.lower text)
  || PyStr.str_in "per month" (PyStr.lower text)
  || PyStr.str_in "/month" (PyStr.lower text).
Proof.
  unfold lits. cbn [map alts]. rewrite !found_Alt, !found_Lit.
  lower_literals. rewrite orb_assoc. reflexivity.
Qed.

(** X3: Whenever the analyzer's fallback says "Monthly", so does the scanner's
    extractor. *)
Theorem infer_monthly_implies_extract_monthly (text : string) :
  infer_frequency text = "Monthly" ->
  extract_billing_frequency text = Some "Monthly".
Proof.
  unfold infer_frequency. rewrite monthly_test.
  destruct (PyStr.str_in "monthly" (PyStr.lower text) ||
            PyStr.str_in "per month" (PyStr.lower text) ||
            PyStr.str_in "/month" (PyStr.lower text)) eqn:E.
  - intros _. unfold extract_billing_frequency.
    assert (any_found monthly_patterns text = true) as ->; [|reflexivity].
    unfold any_found, monthly_patterns. cbn [existsb].
    rewrite found_with_subscription_eq, !found_Lit. lower_literals.
    apply orb_true_iff in E as [E|E]; [apply orb_true_iff in E as [E|E]|];
      rewrite E; rewrite ?orb_true_r; reflexivity.
  - repeat match goal with
           | |- context [if ?b then _ else _] => destruct b
           end; discriminate.
Qed.

Lemma infer_monthly_implies_extract_monthly_witness :
  infer_frequency "9.99 per Month" = "Monthly" /\
  extract_billing_frequency "9.99 per Month" = Some "Monthly".
Proof.
  split; [reflexivity|].
  apply (infer_monthly_implies_extract_monthly "9.99 per Month").
  reflexivity.
Defined.

Lemma trial_flag_by_phrases (email_content : string) :
  any_found trial_patterns email_content =
  existsb (fun phrase => PyStr.str_in phrase (PyStr.lower email_content))
          [ "free trial"; "trial period"; "trial ends"; "trial will end";
            "trial expir" ].
Proof.
  unfold any_found, trial_patterns. cbn [existsb]. rewrite !found_Lit.
  lower_literals. reflexivity.
Qed.


(** X5: What the agent's analysis tool flags as a free trial, the analyzer flags
    as well. *)
Theorem tool_trial_flag_implies_analyzer_flag `{Host} (email_content : string) :
  analysis_is_free_trial (analyze_email_content email_content) = true ->
  fst (detect_free_trial email_content) = true.
Proof.
  unfold detect_free_trial. rewrite trial_flag_by_phrases.
  unfold analyze_email_content. cbn [analysis_is_free_trial existsb].
  intros E.
  match goal with
  | |- fst (if ?b then _ else _) = true =>
      assert (b = true) as ->; [|reflexivity]
  end. revert E.
  rewrite !orb_false_r. intros E.
  apply orb_true_iff in E as [E|E]; [|apply orb_true_iff in E as [E|E]];
    rewrite E; rewrite ?orb_true_r; reflexivity.
Qed.

Lemma tool_trial_flag_implies_analyzer_flag_witness :
  analysis_is_free_trial
    (analyze_email_content "Your Free Trial starts today") = true /\
  fst (@detect_free_trial (Samples.utc_host Samples.new_year_2025)
         "Your Free Trial starts today") = true.
Proof.
  split; [reflexivity|].
  apply (@tool_trial_flag_implies_analyzer_flag
           (Samples.utc_host Samples.new_year_2025)
           "Your Free Trial starts today").
  reflexivity.
Defined.

(** X6: The monthly cost does not depend on the letter case of the frequency. *)
Theorem calculate_monthly_cost_case_blind (amount : float) (f1 f2 : string) :
  PyStr.lower f1 = PyStr.lower f2 ->
  calculate_monthly_cost amount f1 = calculate_monthly_cost amount f2.
Proof.
  intros Hlow. unfold calculate_monthly_cost. rewrite Hlow.
  destruct f1, f2; try discriminate; reflexivity.
Qed.

Lemma calculate_monthly_cost_case_blind_witness :
  PyStr.lower "ANNUAL" = PyStr.lower "Annual" /\
  calculate_monthly_cost 120 "ANNUAL" = calculate_monthly_cost 120 "Annual".
Proof.
  split; [reflexivity|].
  apply (calculate_monthly_cost_case_blind 120 "ANNUAL" "Annual").
  reflexivity.
Defined.

(** ** Categories *)

Lemma startswith_iff (p s : string) :
  PyStr.startswith p s = true <-> exists post, s = (p ++ post)%string.
Proof.
  revert s; induction p as [|a p IH]; intros s; simpl.
  - split; [intros _; exists s; reflexivity|reflexivity].
  - destruct s as [|b s].
    + split; [discriminate|intros [post [=]]].
    + rewrite andb_true_iff, Ascii.eqb_eq, IH. split.
      * intros [-> [post ->]]. exists post. reflexivity.
      * intros [post [= -> ->]]. split; [reflexivity|]. exists post. reflexivity.
Qed.

(** [needle in hay] holds exactly when [hay] is some text, the needle, some
    text. *)
Lemma str_in_iff (needle hay : string) :
  PyStr.str_in needle hay = true <-> exists pre post, hay = (pre ++ needle ++ post)%string.
Proof.
  induction hay as [|c hay IH]; simpl.
  - rewrite orb_false_r, startswith_iff. split.
    + intros [post E]. exists "", post. exact E.
    + intros [[|a pre] [post E]]; [exists post; exact E|discriminate].
  - rewrite orb_true_iff, startswith_iff, IH. split.
    + intros [[post E]|[pre [post E]]].
      * exists "", post. exact E.
      * exists (String c pre), post. simpl. rewrite E. reflexivity.
    + intros [[|a pre] [post E]].
      * left. exists post. exact E.
      * right. simpl in E. injection E as _ E. exists pre, post. exact E.
Qed.

Lemma string_app_assoc (a b c : string) :
  ((a ++ b) ++ c = a ++ b ++ c)%string.
Proof. induction a as [|x a IH]; simpl; [reflexivity|rewrite IH; reflexivity]. Qed.

(** A text that contains a word contains every part of the word. *)
Lemma str_in_trans (part word text : string) :
  PyStr.str_in part word = true ->
  PyStr.str_in word text = true ->
  PyStr.str_in part text = true.
Proof.
  rewrite !str_in_iff. intros (p1 & q1 & ->) (p2 & q2 & ->).
  exists (p2 ++ p1)%string, (q1 ++ q2)%string. rewrite !string_app_assoc. reflexivity.
Qed.

Lemma match_category_title (cats : list (string * list string))
  (text cat : string) :
  match_category cats text = Some cat ->
  In cat (map (fun entry => PyStr.title (fst entry)) cats).
Proof.
  induction cats as [|[c services] cats IH]; cbn [match_category map fst In].
  - discriminate.
  - destruct (existsb _ services).
    + intros [= <-]. left. reflexivity.
    + intros E. right. auto.
Qed.

Lemma match_category_named (text cat : string) :
  match_category service_categories text = Some cat ->
  In cat [ "Streaming"; "Productivity"; "Gaming"; "Fitness"; "News";
           "Shopping"; "Security"; "Cloud"; "Other" ].
Proof.
  intros E. apply match_category_title in E. vm_compute in E.
  repeat (destruct E as [<-|E]; [cbn [In]; tauto|]). destruct E.
Qed.

(** X7: Every service is put in one of the nine categories. *)
Theorem categorize_subscription_range (name email_content : string) :
  In (categorize_subscription name email_content)
     [ "Streaming"; "Productivity"; "Gaming"; "Fitness"; "News"; "Shopping";
       "Security"; "Cloud"; "Other" ].
Proof.
  unfold categorize_subscription.
  destruct (match_category service_categories (PyStr.lower name)) eqn:E1;
    [exact (match_category_named _ _ E1)|].
  destruct (match_category service_categories (PyStr.lower email_content))
    eqn:E2; [exact (match_category_named _ _ E2)|].
  cbn [In]. tauto.
Qed.

Lemma existsb_same {A : Type} (f : A -> bool) (l1 l2 : list A) :
  (forall x, In x l2 -> In x l1) ->
  (forall x, In x l1 -> f x = true -> existsb f l2 = true) ->
  existsb f l1 = existsb f l2.
Proof.
  intros Hsub Hdom. destruct (existsb f l1) eqn:E1.
  - apply existsb_exists in E1 as (x & Hx & Hf). symmetry. eauto.
  - destruct (existsb f l2) eqn:E2; [|reflexivity].
    apply existsb_exists in E2 as (x & Hx & Hf).
    assert (existsb f l1 = true) by (apply existsb_exists; eauto).
    congruence.
Qed.

(** In a list of keywords, a hit of [word] is a hit of its part [part]. *)
Lemma hit_of_part (part word text : string) (l : list string) :
  In part l ->
  PyStr.str_in part word = true ->
  PyStr.str_in word text = true ->
  existsb (fun service => PyStr.str_in service text) l = true.
Proof.
  intros Hin Hpart Hword. apply existsb_exists. exists part.
  split; [exact Hin|]. exact (str_in_trans _ _ _ Hpart Hword).
Qed.

Ltac in_list := solve [cbn [In]; repeat (first [left; reflexivity | right])].

(** A hit of the keyword in [Hfx] is a hit of its part [w] in the list
    of the goal. *)
Ltac part_hit w Hfx :=
  eapply (hit_of_part w); [in_list | | exact Hfx]; reflexivity.

(** A keyword hit is kept by the shorter list, is taken over by one of its
    parts, or contradicts an earlier category that had no hit. *)
Ltac keyword_hit Hfx :=
  first
    [ apply existsb_exists; eexists; split; [|exact Hfx]; in_list
    | part_hit "box" Hfx
    | part_hit "password" Hfx
    | part_hit "fitness" Hfx
    | part_hit "nintendo" Hfx
    | exfalso;
      match goal with
      | E : existsb ?f ?l = false |- _ =>
          let T := fresh in
          assert (existsb f l = true) as T
            by first [ part_hit "box" Hfx
                     | part_hit "amazon" Hfx
                     | part_hit "google" Hfx ];
          rewrite E in T; discriminate T
      end ].

Ltac same_category :=
  match goal with
  | |- (if existsb ?f ?l1 then _ else _) = (if existsb ?f ?l2 then _ else _) =>
      let E := fresh "E" in
      assert (existsb f l1 = existsb f l2) as E;
      [ apply existsb_same;
        [ let x := fresh "x" in
          let Hx := fresh "Hx" in
          intros x Hx; cbn [In] in Hx;
          repeat (destruct Hx as [<-|Hx]; [in_list|]); destruct Hx
        | let x := fresh "x" in
          let Hx := fresh "Hx" in
          let Hfx := fresh "Hfx" in
          intros x Hx Hfx; cbn [In] in Hx;
          repeat (destruct Hx as [<-|Hx]; [keyword_hit Hfx|]); destruct Hx ]
      | try rewrite E; clear E;
        let E' := fresh "E" in
        destruct (existsb f l2) eqn:E'; [reflexivity|] ]
  end.

Lemma match_category_decisive (text : string) :
  match_category service_categories text
  = match_category decisive_categories text.
Proof.
  unfold service_categories, decisive_categories. cbn [match_category].
  do 8 same_category. reflexivity.
Qed.

(** X8: Seven keywords of the table never decide a category, because each
    contains a keyword of the same or an earlier category: the
    classification is the one of the table without "dropbox", "xbox",
    "nintendo online", "myfitnesspal", "1password", "amazon web" and
    "google cloud". *)
Theorem categorize_subscription_decisive (name email_content : string) :
  categorize_subscription name email_content
  = categorize_with decisive_categories name email_content.
Proof.
  unfold categorize_subscription, categorize_with.
  rewrite !match_category_decisive. reflexivity.
Qed.

(** X9: A service whose name contains "xbox" is classed Streaming or
    Productivity, never Gaming: "box" is a Productivity keyword and
    Productivity is tried first. *)
Theorem xbox_is_never_gaming (name email_content : string) :
  PyStr.str_in "xbox" (PyStr.lower name) = true ->
  In (categorize_subscription name email_content) ["Streaming"; "Productivity"].
Proof.
  intros Hx. unfold categorize_subscription, service_categories.
  cbn [match_category].
  destruct (existsb _ _); [left; reflexivity|].
  match goal with
  | |- context [existsb ?f ?l] =>
      assert (existsb f l = true) as -> by part_hit "box" Hx
  end.
  right. left. reflexivity.
Qed.

Lemma xbox_is_never_gaming_witness :
  PyStr.str_in "xbox" (PyStr.lower "Xbox Game Pass") = true /\
  categorize_subscription "Xbox Game Pass" "Your membership" = "Productivity" /\
  In (categorize_subscription "Xbox Game Pass" "Your membership")
     ["Streaming"; "Productivity"].
Proof.
  split; [reflexivity|]. split; [reflexivity|].
  apply (xbox_is_never_gaming "Xbox Game Pass" "Your membership").
  reflexivity.
Defined.

(** ** Currency amounts: what is never extracted *)











Lemma resolve_currency_range (g0 : string) :
  In (resolve_currency g0) ["USD"; "GBP"; "EUR"].
Proof.
  unfold resolve_currency.
  repeat match goal with
         | |- context [if ?b then _ else _] => destruct b
         end; cbn [In]; tauto.
Qed.

(** X11: Every extracted pair carries one of the three currencies. *)
Theorem extracted_currency_range (text : string) (a : float) (c : string) :
  In (a, c) (extract_currency_amounts text) -> In c ["USD"; "GBP"; "EUR"].
Proof.
  unfold extract_currency_amounts. intros Hin.
  apply in_flat_map in Hin as (pattern & _ & Hin).
  apply in_flat_map in Hin as (m & _ & Hin).
  unfold amount_of_match in Hin.
  destruct (group1 m) as [g1|]; [|destruct Hin].
  destruct (PyFloat.float_of_string _); [|destruct Hin].
  destruct Hin as [[= _ <-]|[]]. apply resolve_currency_range.
Qed.

Lemma extracted_currency_range_witness :
  In (7%float, "GBP") (extract_currency_amounts "only £ 7 left") /\
  In "GBP" ["USD"; "GBP"; "EUR"].
Proof.
  assert (In (7%float, "GBP") (extract_currency_amounts "only £ 7 left")) as Hin
    by (vm_compute; left; reflexivity).
  split; [exact Hin|].
  exact (extracted_currency_range "only £ 7 left" 7%float "GBP" Hin).
Defined.

(** ** Service names *)

Lemma case_maps (c : ascii) :
  PyStr.upper_char (PyStr.lower_char c) = PyStr.upper_char c /\
  PyStr.is_alpha (PyStr.lower_char c) = PyStr.is_alpha c /\
  PyStr.is_alpha (PyStr.upper_char c) = PyStr.is_alpha c /\
  PyStr.upper_char (PyStr.upper_char c) = PyStr.upper_char c /\
  PyStr.lower_char (PyStr.upper_char c) = PyStr.lower_char c.
Proof.
  destruct c as [[] [] [] [] [] [] [] []]; repeat split.
Qed.

(** Title case only looks at the letters, not at their case. *)
Lemma title_from_lower (b : bool) (s : string) :
  PyStr.title_from b (PyStr.lower s) = PyStr.title_from b s.
Proof.
  revert b; induction s as [|c s IH]; intros b; [reflexivity|].
  cbn [PyStr.lower PyStr.title_from].
  destruct (case_maps c) as (Hu & Ha & _).
  rewrite lower_char_idempotent, Hu, Ha, IH. reflexivity.
Qed.

Lemma title_case_blind (s1 s2 : string) :
  PyStr.lower s1 = PyStr.lower s2 -> PyStr.title s1 = PyStr.title s2.
Proof.
  intros E. unfold PyStr.title.
  rewrite <- (title_from_lower false s1), <- (title_from_lower false s2), E.
  reflexivity.
Qed.




(** X13: Two senders whose first domain labels differ only in letter case, and
    are not among the webmail names as written, get the same service
    name. *)
Theorem service_name_ignores_domain_case (e1 e2 : Email) :
  let from1 := get (e_from e1) "" in
  let from2 := get (e_from e2) "" in
  PyStr.str_in "@" from1 = true ->
  PyStr.str_in "@" from2 = true ->
  PyStr.mem (company_of from1) generic_domains = false ->
  PyStr.mem (company_of from2) generic_domains = false ->
  PyStr.lower (company_of from1) = PyStr.lower (company_of from2) ->
  extract_service_name e1 = extract_service_name e2.
Proof.
  intros from1 from2 H1 H2 G1 G2 Hlow. unfold extract_service_name.
  fold from1 from2. rewrite H1, H2.
  fold (company_of from1) (company_of from2).
  change ["gmail"; "yahoo"; "hotmail"; "outlook"; "mail"] with generic_domains.
  rewrite G1, G2. cbn [negb]. apply title_case_blind. exact Hlow.
Qed.

Lemma service_name_ignores_domain_case_witness :
  let e1 := Samples.email "a" "billing@netflix.com" "Receipt" "" 100 in
  let e2 := Samples.email "b" "Netflix <info@NETFLIX.COM>" "Hello" "" 200 in
  extract_service_name e1 = "Netflix" /\
  extract_service_name e1 = extract_service_name e2.
Proof.
  split; [reflexivity|].
  apply (service_name_ignores_domain_case
           (Samples.email "a" "billing@netflix.com" "Receipt" "" 100)
           (Samples.email "b" "Netflix <info@NETFLIX.COM>" "Hello" "" 200));
    reflexivity.
Defined.

(** ** The records of one analysis *)

Lemma infer_frequency_range (email_body : string) :
  In (infer_frequency email_body) ["Monthly"; "Annual"; "Quarterly"; "Unknown"].
Proof.
  unfold infer_frequency.
  repeat match goal with
         | |- context [if ?b then _ else _] => destruct b
         end; cbn [In]; tauto.
Qed.

(** What one turn of the builder's loop produces, when it does not raise. *)
Lemma analyze_service_record `{Host} (name : string) (group : list Email)
  (k k' : nat) (r : Subscription) :
  analyze_service (name, group) k = Ok (r, k') ->
  k' = S k /\
  service_name r = name /\
  email_count r = List.length group /\
  In (billing_frequency r) ["Monthly"; "Annual"; "Quarterly"; "Unknown"] /\
  (exists c, category r = Some c /\
             In c [ "Streaming"; "Productivity"; "Gaming"; "Fitness"; "News";
                    "Shopping"; "Security"; "Cloud"; "Other" ]) /\
  (exists d, last_email_date r = Some d /\
             is_active r = Some (days (clock k - d) <=? 60)%Z) /\
  (exists t, is_free_trial r = Some t /\
             (t = false -> trial_end_date r = None)).
Proof.
  unfold analyze_service.
  rewrite <- (sort_newest_first_length group).
  destruct (sort_newest_first group) as [|rep rest]; [discriminate|].
  unfold bind at 1. cbn [index0 ret hd].
  unfold bind at 1, lift.
  destruct (fromtimestamp (timestamp_of rep)) as [d|e]; [|discriminate].
  cbn [hasattr PyStr.mem existsb].
  change (select_amount []) with (@None float, "USD"). cbv iota beta.
  assert (fst (detect_free_trial (get (e_body_text rep) "")) = false ->
          snd (detect_free_trial (get (e_body_text rep) "")) = None) as Hflag
    by (unfold detect_free_trial; destruct (any_found _ _); cbn [fst snd];
        [discriminate|reflexivity]).
  destruct (detect_free_trial (get (e_body_text rep) "")) as [trial trial_end].
  unfold bind, is_subscription_active, datetime_now, ret.
  intros [= <- <-]. cbn.
  repeat split.
  - apply infer_frequency_range.
  - eexists. split; [reflexivity|]. unfold categorize_subscription.
    destruct (match_category service_categories (PyStr.lower name)) eqn:E1;
      [exact (match_category_named _ _ E1)|].
    destruct (match_category service_categories
                (PyStr.lower (get (e_body_text rep) ""))) eqn:E2;
      [exact (match_category_named _ _ E2)|].
    cbn [In]. tauto.
  - eexists. split; reflexivity.
  - eexists. split; [reflexivity|]. exact Hflag.
Qed.

Lemma mapM_Forall2 {A B : Type} (f : A -> M B) (l : list A) :
  forall (n n' : nat) (bs : list B),
    mapM f l n = Ok (bs, n') ->
    Forall2 (fun a b => exists k k', f a k = Ok (b, k')) l bs.
Proof.
  induction l as [|a l IH]; intros n n' bs; cbn [mapM].
  - unfold ret. intros [= <- _]. constructor.
  - unfold bind at 1. destruct (f a n) as [[b0 n0]|e] eqn:Ea; [|discriminate].
    unfold bind at 1. destruct (mapM f l n0) as [[bs0 n1]|e] eqn:El;
      [|discriminate].
    unfold ret. intros [= <- _]. constructor; eauto.
Qed.

Lemma mapM_steps {A B : Type} (f : A -> M B) (l : list A) :
  (forall a k b k', f a k = Ok (b, k') -> k' = S k) ->
  forall (n n' : nat) (bs : list B),
    mapM f l n = Ok (bs, n') -> (n' = n + List.length l)%nat.
Proof.
  intros Hstep. induction l as [|a l IH]; intros n n' bs; cbn [mapM].
  - unfold ret. intros [= _ <-]. cbn. lia.
  - unfold bind at 1. destruct (f a n) as [[b0 n0]|e] eqn:Ea; [|discriminate].
    unfold bind at 1. destruct (mapM f l n0) as [[bs0 n1]|e] eqn:El;
      [|discriminate].
    unfold ret. intros [= _ <-].
    apply Hstep in Ea. apply IH in El. cbn [List.length]. lia.
Qed.

Lemma Forall2_map_eq {A B C : Type} (f : A -> C) (g : B -> C)
  (l : list A) (bs : list B) :
  Forall2 (fun a b => g b = f a) l bs -> map g bs = map f l.
Proof.
  induction 1 as [|a b l bs E _ IH]; [reflexivity|].
  cbn [map]. rewrite E, IH. reflexivity.
Qed.

Lemma Forall2_In_r {A B : Type} (R : A -> B -> Prop) (l : list A)
  (bs : list B) (b : B) :
  Forall2 R l bs -> In b bs -> exists a, In a l /\ R a b.
Proof.
  induction 1 as [|a0 b0 l bs HR _ IH]; intros Hb; [destruct Hb|].
  destruct Hb as [<-|Hb].
  - exists a0. split; [left; reflexivity|exact HR].
  - destruct (IH Hb) as (a & Ha & Hab). exists a. split; [right|]; assumption.
Qed.

Lemma Forall2_In_l {A B : Type} (R : A -> B -> Prop) (l : list A)
  (bs : list B) (a : A) :
  Forall2 R l bs -> In a l -> exists b, In b bs /\ R a b.
Proof.
  induction 1 as [|a0 b0 l bs HR _ IH]; intros Ha; [destruct Ha|].
  destruct Ha as [<-|Ha].
  - exists b0. split; [left; reflexivity|exact HR].
  - destruct (IH Ha) as (b & Hb & Hab). exists b. split; [right|]; assumption.
Qed.

Lemma analyze_records_by_group `{Host} (emails : list Email) (n n' : nat)
  (records : list Subscription) :
  analyze_subscription_emails emails n = Ok (records, n') ->
  Forall2 (fun entry r =>
             exists k k', analyze_service entry k = Ok (r, k'))
          (group_by_service emails) records.
Proof. apply mapM_Forall2. Qed.

Lemma record_names `{Host} (emails : list Email) (n n' : nat)
  (records : list Subscription) :
  analyze_subscription_emails emails n = Ok (records, n') ->
  map service_name records = map fst (group_by_service emails).
Proof.
  intros Hrun. apply Forall2_map_eq.
  eapply Forall2_impl; [|exact (analyze_records_by_group _ _ _ _ Hrun)].
  intros [name group] r (k & k' & Hr).
  apply analyze_service_record in Hr. tauto.
Qed.

Lemma record_of_key `{Host} (emails : list Email) (n n' : nat)
  (records : list Subscription) (e : Email) :
  analyze_subscription_emails emails n = Ok (records, n') ->
  In e emails ->
  exists r, In r records /\ service_name r = service_key e.
Proof.
  intros Hrun He.
  assert (In (service_key e, filed_under (service_key e) emails)
             (group_by_service emails)) as Hentry.
  { apply group_by_service_spec. split; [|reflexivity].
    intros Hnil.
    assert (In e (filed_under (service_key e) emails)) as Hin
      by (apply filter_In; split; [exact He|apply String.eqb_refl]).
    rewrite Hnil in Hin. destruct Hin. }
  destruct (Forall2_In_l _ _ _ _ (analyze_records_by_group _ _ _ _ Hrun) Hentry)
    as (r & Hr & k & k' & Hk).
  exists r. split; [exact Hr|].
  apply analyze_service_record in Hk. tauto.
Qed.

Lemma analysis_clock `{Host} (emails : list Email) (n n' : nat)
  (records : list Subscription) :
  analyze_subscription_emails emails n = Ok (records, n') ->
  (n' = n + List.length records)%nat.
Proof.
  intros Hrun.
  rewrite <- (length_map service_name), (record_names _ _ _ _ Hrun), length_map.
  revert Hrun. apply mapM_steps.
  intros [name group] k r k' Hk.
  apply analyze_service_record in Hk. tauto.
Qed.

(** X14: One record per service: the records of an analysis that does not raise
    carry distinct service names; every email is covered by the record of
    its service key, whose count is the number of emails with that key and
    is never zero; the clock is read once per record. *)
Theorem one_record_per_service `{Host} (emails : list Email) (n n' : nat)
  (records : list Subscription) :
  analyze_subscription_emails emails n = Ok (records, n') ->
  NoDup (map service_name records) /\
  (forall e, In e emails ->
             exists r, In r records /\ service_name r = service_key e) /\
  (forall r, In r records ->
             email_count r
             = List.length (filed_under (service_name r) emails) /\
             (0 < email_count r)%nat) /\
  (n' = n + List.length records)%nat.
Proof.
  intros Hrun. split; [|split; [|split]].
  - rewrite (record_names _ _ _ _ Hrun).
    exact (proj1 (group_by_service_spec emails "" [])).
  - intros e He. exact (record_of_key _ _ _ _ e Hrun He).
  - intros r Hr.
    destruct (Forall2_In_r _ _ _ _ (analyze_records_by_group _ _ _ _ Hrun) Hr)
      as ([name group] & Hentry & k & k' & Hk).
    apply analyze_service_record in Hk as (_ & Hname & Hcount & _).
    apply group_by_service_spec in Hentry as [Hne ->].
    rewrite Hname, Hcount. split; [reflexivity|].
    destruct (filed_under name emails); [congruence|cbn; lia].
  - exact (analysis_clock _ _ _ _ Hrun).
Qed.

Lemma one_record_per_service_witness :
  let emails := Samples.tie_group ++ [Samples.nameless] in
  exists records n',
    @analyze_subscription_emails (Samples.utc_host Samples.new_year_2025)
      emails 0%nat = Ok (records, n') /\
    (NoDup (map service_name records) /\
     (forall e, In e emails ->
                exists r, In r records /\ service_name r = service_key e) /\
     (forall r, In r records ->
                email_count r
                = List.length (filed_under (service_name r) emails) /\
                (0 < email_count r)%nat) /\
     (n' = 0 + List.length records)%nat).
Proof.
  cbv zeta.
  destruct (@analyze_subscription_emails
              (Samples.utc_host Samples.new_year_2025)
              (Samples.tie_group ++ [Samples.nameless]) 0%nat)
    as [[records n']|e] eqn:E.
  - exists records, n'. split; [reflexivity|].
    exact (@one_record_per_service (Samples.utc_host Samples.new_year_2025)
             _ _ _ _ E).
  - vm_compute in E. discriminate E.
Defined.

(** X15: The fields of every record are in range: the frequency is Monthly,
    Annual, Quarterly or Unknown and never Weekly, the category is one of
    the nine, the date of the last email and the active flag are present,
    and a record that is not a free trial has no trial end date. *)
Theorem record_fields_in_range `{Host} (emails : list Email) (n n' : nat)
  (records : list Subscription) (r : Subscription) :
  analyze_subscription_emails emails n = Ok (records, n') ->
  In r records ->
  In (billing_frequency r) ["Monthly"; "Annual"; "Quarterly"; "Unknown"] /\
  (exists c, category r = Some c /\
             In c [ "Streaming"; "Productivity"; "Gaming"; "Fitness"; "News";
                    "Shopping"; "Security"; "Cloud"; "Other" ]) /\
  (exists d b, last_email_date r = Some d /\ is_active r = Some b) /\
  (exists t, is_free_trial r = Some t /\
             (t = false -> trial_end_date r = None)).
Proof.
  intros Hrun Hr.
  destruct (Forall2_In_r _ _ _ _ (analyze_records_by_group _ _ _ _ Hrun) Hr)
    as ([name group] & _ & k & k' & Hk).
  apply analyze_service_record in Hk
    as (_ & _ & _ & Hf & Hc & (d & Hd & Ha) & Ht).
  repeat split; try assumption. eauto.
Qed.

Lemma record_fields_in_range_witness :
  extract_billing_frequency "Billed weekly, 3.99 USD" = Some "Weekly" /\
  exists r n',
    @analyze_subscription_emails (Samples.utc_host Samples.new_year_2025)
      [Samples.email "w" "Gym <hi@gymclub.com>" "Receipt"
         "Billed weekly, 3.99 USD" 1735000000] 0%nat = Ok ([r], n') /\
    billing_frequency r = "Unknown" /\
    (In (billing_frequency r) ["Monthly"; "Annual"; "Quarterly"; "Unknown"] /\
     (exists c, category r = Some c /\
                In c [ "Streaming"; "Productivity"; "Gaming"; "Fitness";
                       "News"; "Shopping"; "Security"; "Cloud"; "Other" ]) /\
     (exists d b, last_email_date r = Some d /\ is_active r = Some b) /\
     (exists t, is_free_trial r = Some t /\
                (t = false -> trial_end_date r = None))).
Proof.
  split; [vm_compute; reflexivity|].
  destruct (@analyze_subscription_emails
              (Samples.utc_host Samples.new_year_2025)
              [Samples.email "w" "Gym <hi@gymclub.com>" "Receipt"
                 "Billed weekly, 3.99 USD" 1735000000] 0%nat)
    as [[records n']|e] eqn:E; [|vm_compute in E; discriminate E].
  assert (exists r, records = [r] /\ billing_frequency r = "Unknown")
    as (r & -> & Hf).
  { vm_compute in E. injection E as <- _. eexists. split; reflexivity. }
  exists r, n'. split; [reflexivity|]. split; [exact Hf|].
  exact (@record_fields_in_range (Samples.utc_host Samples.new_year_2025)
           _ _ _ _ r E (or_introl eq_refl)).
Defined.

(** ** When the analysis raises *)

Lemma mapM_total {A B : Type} (f : A -> M B) (l : list A) :
  (forall a, In a l -> forall k, exists b, f a k = Ok (b, S k)) ->
  forall n, exists bs, mapM f l n = Ok (bs, n + List.length l)%nat.
Proof.
  induction l as [|a l IH]; intros Hf n; cbn [mapM List.length].
  - exists []. unfold ret. rewrite Nat.add_0_r. reflexivity.
  - destruct (Hf a (or_introl eq_refl) n) as [b Hb].
    destruct (IH (fun x Hx => Hf x (or_intror Hx)) (S n)) as [bs Hbs].
    exists (b :: bs). unfold bind at 1. rewrite Hb.
    unfold bind at 1. rewrite Hbs. unfold ret.
    do 2 f_equal. lia.
Qed.

Lemma mapM_raises {A B : Type} (f : A -> M B) (l : list A) (a : A) :
  In a l ->
  (forall k, exists e, f a k = Raise e) ->
  forall n, exists e, mapM f l n = Raise e.
Proof.
  intros Ha Hraise. induction l as [|a0 l IH]; intros n; [destruct Ha|].
  cbn [mapM]. unfold bind at 1.
  destruct (f a0 n) as [[b0 n0]|e] eqn:E0; [|eauto].
  destruct Ha as [->|Ha].
  - destruct (Hraise n) as [e He]. congruence.
  - destruct (IH Ha n0) as [e He]. unfold bind at 1. rewrite He. eauto.
Qed.

Lemma group_member `{Host} (emails : list Email) (name : string)
  (group : list Email) :
  In (name, group) (group_by_service emails) ->
  exists rep rest,
    sort_newest_first group = rep :: rest /\ In rep emails.
Proof.
  intros Hin. apply group_by_service_spec in Hin as [Hne Hg].
  destruct (sort_newest_first_head group Hne) as (rep & rest & Hsort & Hfirst).
  exists rep, rest. split; [exact Hsort|].
  apply first_newest_max in Hfirst as [Hrep _].
  rewrite Hg in Hrep. apply filter_In in Hrep. tauto.
Qed.

(** X16: The analysis does not raise when the host can convert the timestamp of
    every email: it returns one record per service and reads the clock once
    for each. *)
Theorem analysis_total_when_timestamps_convert `{Host} (emails : list Email)
  (n : nat) :
  (forall e, In e emails ->
             exists d, fromtimestamp (timestamp_of e) = Ok d) ->
  exists records,
    analyze_subscription_emails emails n
    = Ok (records, (n + List.length (group_by_service emails))%nat).
Proof.
  intros Hts. unfold analyze_subscription_emails. apply mapM_total.
  intros [name group] Hin k.
  destruct (group_member _ _ _ Hin) as (rep & rest & Hsort & Hrep).
  destruct (Hts rep Hrep) as [d Hd].
  unfold analyze_service. rewrite Hsort.
  unfold bind at 1. cbn [index0 ret]. unfold bind at 1, lift. rewrite Hd.
  destruct (select_amount _) as [a c].
  destruct (detect_free_trial _) as [trial trial_end].
  unfold bind, is_subscription_active, datetime_now, ret.
  eexists. reflexivity.
Qed.

Lemma analysis_total_when_timestamps_convert_witness :
  let emails := Samples.tie_group ++ [Samples.nameless] in
  (forall e, In e emails ->
             exists d, @fromtimestamp (Samples.utc_host Samples.new_year_2025)
                         (timestamp_of e) = Ok d) /\
  exists records,
    @analyze_subscription_emails (Samples.utc_host Samples.new_year_2025)
      emails 5%nat
    = Ok (records, (5 + List.length (group_by_service emails))%nat).
Proof.
  cbv zeta.
  assert (forall e, In e (Samples.tie_group ++ [Samples.nameless]) ->
            exists d, @fromtimestamp (Samples.utc_host Samples.new_year_2025)
                        (timestamp_of e) = Ok d) as Hts
    by (intros e _; eexists; reflexivity).
  split; [exact Hts|].
  exact (@analysis_total_when_timestamps_convert
           (Samples.utc_host Samples.new_year_2025) _ 5%nat Hts).
Defined.

(** X17: One timestamp the host cannot convert aborts the whole analysis when it
    belongs to the representative of its service: no record is returned,
    not even for the other services. *)
Theorem analysis_raises_on_bad_representative `{Host} (emails : list Email)
  (name : string) (group : list Email) (rep : Email) (rest : list Email)
  (e : exn) (n : nat) :
  In (name, group) (group_by_service emails) ->
  sort_newest_first group = rep :: rest ->
  fromtimestamp (timestamp_of rep) = Raise e ->
  exists e', analyze_subscription_emails emails n = Raise e'.
Proof.
  intros Hin Hsort Hraise. unfold analyze_subscription_emails.
  apply (mapM_raises _ _ (name, group) Hin).
  intros k. exists e. unfold analyze_service. rewrite Hsort.
  unfold bind at 1. cbn [index0 ret]. unfold bind at 1, lift.
  rewrite Hraise. reflexivity.
Qed.

Lemma analysis_raises_on_bad_representative_witness :
  let host := MoreSamples.bounded_host Samples.new_year_2025 in
  let emails := MoreSamples.one_bad_timestamp in
  let bad := Samples.email "h1" "Hulu <info@hulu.com>" "Receipt" ""
                           1735000000000 in
  In ("Hulu", [bad]) (@group_by_service emails) /\
  @fromtimestamp host (timestamp_of bad) = Raise OverflowError /\
  exists e', @analyze_subscription_emails host emails 0%nat = Raise e'.
Proof.
  cbv zeta.
  assert (In ("Hulu",
              [Samples.email "h1" "Hulu <info@hulu.com>" "Receipt" ""
                             1735000000000])
             (group_by_service MoreSamples.one_bad_timestamp)) as Hin
    by (vm_compute; right; left; reflexivity).
  split; [exact Hin|]. split; [reflexivity|].
  exact (@analysis_raises_on_bad_representative
           (MoreSamples.bounded_host Samples.new_year_2025)
           MoreSamples.one_bad_timestamp "Hulu" _ _ [] OverflowError 0%nat
           Hin eq_refl eq_refl).
Defined.

(** ** The report's counts *)

Lemma count_under_add (k cat : string) (cost : float)
  (d : list (string * CategoryStats)) :
  count_under k (add_to_category cat cost d) =
  if String.eqb cat k then S (count_under k d) else count_under k d.
Proof.
  unfold count_under.
  induction d as [|[k' st] d IH]; cbn [add_to_category lookup_stats].
  - destruct (String.eqb cat k); reflexivity.
  - destruct (String.eqb k' cat) eqn:Ek'; cbn [lookup_stats].
    + apply String.eqb_eq in Ek'; subst k'.
      destruct (String.eqb cat k); reflexivity.
    + destruct (String.eqb k' k) eqn:Ek; [|exact IH].
      apply String.eqb_eq in Ek; subst k'.
      rewrite String.eqb_sym, Ek'. reflexivity.
Qed.

Lemma keys_add_to_category (cat : string) (cost : float)
  (d : list (string * CategoryStats)) (k : string) :
  In k (map fst (add_to_category cat cost d)) <-> k = cat \/ In k (map fst d).
Proof.
  induction d as [|[k' st] d IH]; cbn [add_to_category map fst In].
  - intuition.
  - destruct (String.eqb k' cat) eqn:Ek'; cbn [map fst In].
    + apply String.eqb_eq in Ek'; subst k'. intuition.
    + rewrite IH. intuition.
Qed.

Lemma NoDup_add_to_category (cat : string) (cost : float)
  (d : list (string * CategoryStats)) :
  NoDup (map fst d) -> NoDup (map fst (add_to_category cat cost d)).
Proof.
  induction d as [|[k' st] d IH]; cbn [add_to_category map fst]; intros Hnd.
  - constructor; [intros []|constructor].
  - inversion Hnd as [|? ? Hnotin Hnd']; subst.
    destruct (String.eqb k' cat) eqn:Ek'; cbn [map fst].
    + constructor; assumption.
    + constructor; [|auto].
      rewrite keys_add_to_category. intros [->|Hin]; [|contradiction].
      rewrite String.eqb_refl in Ek'. discriminate.
Qed.

Lemma total_count_add (cat : string) (cost : float)
  (d : list (string * CategoryStats)) :
  total_count (add_to_category cat cost d) = S (total_count d).
Proof.
  unfold total_count.
  induction d as [|[k' st] d IH]; cbn [add_to_category fold_right snd count];
    [reflexivity|].
  destruct (String.eqb k' cat); cbn [fold_right snd count]; [reflexivity|].
  rewrite IH. lia.
Qed.

Lemma In_lookup_stats (d : list (string * CategoryStats)) (k : string)
  (st : CategoryStats) :
  NoDup (map fst d) -> In (k, st) d -> lookup_stats k d = Some st.
Proof.
  induction d as [|[k' st'] d IH]; cbn [map fst In lookup_stats]; intros Hnd.
  - intros [].
  - inversion Hnd as [|? ? Hnotin Hnd']; subst.
    intros [[= -> ->]|Hin].
    + rewrite String.eqb_refl. reflexivity.
    + destruct (String.eqb k' k) eqn:Ek; [|auto].
      apply String.eqb_eq in Ek; subst k'.
      exfalso. apply Hnotin. apply (in_map fst) in Hin. exact Hin.
Qed.

Lemma group_by_category_inv (subs processed : list Subscription)
  (d : list (string * CategoryStats)) :
  NoDup (map fst d) ->
  (forall k, count_under k d = count_in_category k processed) ->
  (forall k, In k (map fst d) -> (0 < count_under k d)%nat) ->
  total_count d = List.length processed ->
  let d' :=
    fold_left
      (fun cats s => add_to_category (get (category s) "Other")
                                     (cost_or_zero s) cats)
      subs d in
  NoDup (map fst d') /\
  (forall k, count_under k d' = count_in_category k (processed ++ subs)) /\
  (forall k, In k (map fst d') -> (0 < count_under k d')%nat) /\
  total_count d' = List.length (processed ++ subs).
Proof.
  revert processed d; induction subs as [|s subs IH];
    intros processed d Hnd Hcount Hpos Htotal; cbn [fold_left].
  - rewrite app_nil_r. auto.
  - replace (processed ++ s :: subs) with ((processed ++ [s]) ++ subs)
      by (rewrite <- app_assoc; reflexivity).
    apply IH.
    + apply NoDup_add_to_category. exact Hnd.
    + intros k. rewrite count_under_add, Hcount.
      unfold count_in_category, category_of.
      rewrite filter_app, length_app. cbn [filter].
      destruct (String.eqb (get (category s) "Other") k); cbn [List.length]; lia.
    + intros k Hk. rewrite count_under_add.
      apply keys_add_to_category in Hk as [->|Hk].
      * rewrite String.eqb_refl. lia.
      * specialize (Hpos k Hk).
        destruct (String.eqb (get (category s) "Other") k); lia.
    + rewrite total_count_add, Htotal, length_app. cbn [List.length]. lia.
Qed.

(** X18: The rollup counts every active record once: the categories are
    distinct, each holds the number of active records counted under it
    (never zero), the counts add up to the number of active records, and
    this number is at most the number of records. *)
Theorem report_counts_add_up (now : datetime) (subs : list Subscription) :
  let report := summary_at now subs in
  let active := active_only subs in
  NoDup (map fst (categories report)) /\
  (forall k st, In (k, st) (categories report) ->
                count st = count_in_category k active /\ (0 < count st)%nat) /\
  (forall s, In s active -> In (category_of s) (map fst (categories report))) /\
  total_count (categories report) = active_subscriptions report /\
  (active_subscriptions report <= total_subscriptions report)%nat.
Proof.
  cbv zeta. cbn [summary_at categories active_subscriptions total_subscriptions].
  destruct (group_by_category_inv (active_only subs) [] [] (NoDup_nil _)
              (fun _ => eq_refl) (fun _ (F : In _ []) => match F with end)
              eq_refl)
    as (Hnd & Hcount & Hpos & Htotal).
  fold (group_by_category (active_only subs)) in Hnd, Hcount, Hpos, Htotal.
  cbn [app] in Hcount, Htotal.
  split; [exact Hnd|]. split; [|split; [|split]].
  - intros k st Hin.
    pose proof (In_lookup_stats _ _ _ Hnd Hin) as Hl.
    specialize (Hcount k). specialize (Hpos k (in_map fst _ _ Hin)).
    unfold count_under in Hcount, Hpos. rewrite Hl in Hcount, Hpos.
    split; assumption.
  - intros s Hs.
    assert (0 < count_in_category (category_of s) (active_only subs))%nat
      as Hn.
    { unfold count_in_category.
      assert (In s (filter (fun s0 => String.eqb (category_of s0) (category_of s))
                           (active_only subs))) as Hin
        by (apply filter_In; split; [exact Hs|apply String.eqb_refl]).
      destruct (filter _ _); [destruct Hin|cbn; lia]. }
    rewrite <- Hcount in Hn. unfold count_under in Hn.
    destruct (lookup_stats (category_of s) (group_by_category (active_only subs)))
      eqn:El; [|lia].
    clear - El. induction (group_by_category (active_only subs))
      as [|[k' st'] d IH]; cbn [lookup_stats map fst In] in *; [discriminate|].
    destruct (String.eqb k' (category_of s)) eqn:Ek.
    + left. apply String.eqb_eq. exact Ek.
    + right. auto.
  - exact Htotal.
  - unfold active_only. apply filter_length_le.
Qed.

(** ** One scan: records and report together *)

Lemma service_key_annotate (e : Email) :
  service_key (annotate e) = extract_service_name e.
Proof. reflexivity. Qed.

Lemma scan_gmail_steps `{Host} (self st : AgentState) (emails : list Email)
  (n n' : nat) (records : list Subscription) :
  scan_gmail self true emails n = Ok ((records, st), n') ->
  exists n1,
    buildSubscriptionRecords emails n = Ok (records, n1) /\
    st = {| self_subscriptions := records;
            self_summary := Some (summary_at (clock n1) records) |} /\
    n' = S n1.
Proof.
  unfold scan_gmail. cbn [negb]. unfold bind at 1.
  destruct (buildSubscriptionRecords emails n) as [[rs n1]|e]; [|discriminate].
  unfold bind, generate_summary_report, datetime_now, ret.
  intros [= <- <- <-]. exists n1. auto.
Qed.

(** X19: A scan that does not raise leaves in the agent exactly the records it
    returns and the report over those records, computed at the clock
    reading that follows the one reading per record; the records carry the
    distinct service names of the emails, and every email is covered. *)
Theorem scan_gmail_outcome `{Host} (self st : AgentState)
  (emails : list Email) (n n' : nat) (records : list Subscription) :
  scan_gmail self true emails n = Ok ((records, st), n') ->
  self_subscriptions st = records /\
  get_summary st
  = Some (summary_at (clock (n + List.length records)) records) /\
  n' = S (n + List.length records) /\
  NoDup (map service_name records) /\
  (forall e, In e emails ->
             exists r, In r records /\
                       service_name r = extract_service_name e).
Proof.
  intros Hscan.
  apply scan_gmail_steps in Hscan as (n1 & Hrun & -> & ->).
  unfold buildSubscriptionRecords in Hrun.
  rewrite (analysis_clock _ _ _ _ Hrun).
  repeat split.
  - rewrite (record_names _ _ _ _ Hrun).
    exact (proj1 (group_by_service_spec (map annotate emails) "" [])).
  - intros e He. rewrite <- service_key_annotate.
    apply (record_of_key _ _ _ _ (annotate e) Hrun). apply in_map. exact He.
Qed.

Lemma scan_gmail_outcome_witness :
  let host := Samples.utc_host Samples.new_year_2025 in
  let emails := Samples.tie_group ++ [Samples.nameless] in
  @scan_gmail host initial_state false emails 0%nat
  = Ok (([], initial_state), 0%nat) /\
  exists records st n',
    @scan_gmail host initial_state true emails 0%nat
    = Ok ((records, st), n') /\
    List.length records = 2%nat /\
    (self_subscriptions st = records /\
     get_summary st
     = Some (summary_at (@clock host (0 + List.length records)) records) /\
     n' = S (0 + List.length records) /\
     NoDup (map service_name records) /\
     (forall e, In e emails ->
                exists r, In r records /\
                          service_name r = extract_service_name e)).
Proof.
  cbv zeta. split; [reflexivity|].
  destruct (@scan_gmail (Samples.utc_host Samples.new_year_2025)
              initial_state true (Samples.tie_group ++ [Samples.nameless])
              0%nat) as [[[records st] n']|e] eqn:E;
    [|vm_compute in E; discriminate E].
  exists records, st, n'. split; [reflexivity|]. split.
  - vm_compute in E. injection E as <- _ _. reflexivity.
  - exact (@scan_gmail_outcome (Samples.utc_host Samples.new_year_2025)
             _ _ _ _ _ _ E).
Defined.

Lemma sum_monthly_cost_none (subs : list Subscription) :
  (forall s, In s subs -> monthly_cost s = None) ->
  sum_monthly_cost subs = 0%float.
Proof.
  unfold sum_monthly_cost. generalize 0%float as acc.
  induction subs as [|s subs IH]; intros acc Hnone; [reflexivity|].
  cbn [fold_left]. rewrite (Hnone s (or_introl eq_refl)).
  apply IH. intros x Hx. apply Hnone. right. exact Hx.
Qed.

Lemma add_to_category_zero (cat : string)
  (d : list (string * CategoryStats)) :
  (forall k st, In (k, st) d -> cat_monthly_cost st = 0%float) ->
  forall k st, In (k, st) (add_to_category cat 0%float d) ->
               cat_monthly_cost st = 0%float.
Proof.
  induction d as [|[k' st'] d IH]; cbn [add_to_category]; intros Hd k st.
  - intros [[= _ <-]|[]]. reflexivity.
  - destruct (String.eqb k' cat).
    + intros [[= _ <-]|Hin].
      * cbn [cat_monthly_cost].
        rewrite (Hd k' st' (or_introl eq_refl)). reflexivity.
      * apply (Hd k st). right. exact Hin.
    + intros [[= <- <-]|Hin].
      * apply (Hd k' st'). left. reflexivity.
      * apply IH with (k := k); [|exact Hin].
        intros k0 st0 H0. apply (Hd k0 st0). right. exact H0.
Qed.

Lemma group_by_category_zero (subs : list Subscription) :
  (forall s, In s subs -> monthly_cost s = None) ->
  forall k st, In (k, st) (group_by_category subs) ->
               cat_monthly_cost st = 0%float.
Proof.
  unfold group_by_category.
  assert (forall d : list (string * CategoryStats),
             (forall k st, In (k, st) d -> cat_monthly_cost st = 0%float) ->
             (forall s, In s subs -> monthly_cost s = None) ->
             forall k st,
               In (k, st)
                  (fold_left
                     (fun cats s =>
                        add_to_category (get (category s) "Other")
                                        (cost_or_zero s) cats) subs d) ->
               cat_monthly_cost st = 0%float) as Hgen.
  { induction subs as [|s subs IH]; intros d Hd Hnone; cbn [fold_left];
      [exact Hd|].
    apply IH.
    - unfold cost_or_zero. rewrite (Hnone s (or_introl eq_refl)).
      apply add_to_category_zero. exact Hd.
    - intros x Hx. apply Hnone. right. exact Hx. }
  intros Hnone. apply Hgen; [intros k st []|exact Hnone].
Qed.

(** X20: Because no record ever carries an amount, the report of a scan always
    shows a total monthly cost of zero, an annual projection of zero and a
    zero cost in every category. *)
Theorem scan_reports_no_cost `{Host} (self st : AgentState)
  (emails : list Email) (n n' : nat) (records : list Subscription) :
  scan_gmail self true emails n = Ok ((records, st), n') ->
  exists report,
    get_summary st = Some report /\
    total_monthly_cost report = 0%float /\
    annual_projection report = 0%float /\
    (forall k stats, In (k, stats) (categories report) ->
                     cat_monthly_cost stats = 0%float).
Proof.
  intros Hscan.
  apply scan_gmail_steps in Hscan as (n1 & Hrun & -> & ->).
  assert (forall s, In s (active_only records) -> monthly_cost s = None)
    as Hnone.
  { intros s Hs. apply filter_In in Hs as [Hs _].
    exact (proj2 (analyze_never_extracts_amount _ _ _ _ Hrun s Hs)). }
  eexists. split; [reflexivity|].
  cbn [summary_at total_monthly_cost annual_projection categories].
  rewrite (sum_monthly_cost_none _ Hnone).
  repeat split. apply group_by_category_zero. exact Hnone.
Qed.

Lemma scan_reports_no_cost_witness :
  let host := Samples.utc_host Samples.new_year_2025 in
  exists records st n',
    @scan_gmail host initial_state true [Samples.bill] 0%nat
    = Ok ((records, st), n') /\
    active_subscriptions (summary_at Samples.new_year_2025 records) = 1%nat /\
    exists report,
      get_summary st = Some report /\
      total_monthly_cost report = 0%float /\
      annual_projection report = 0%float /\
      (forall k stats, In (k, stats) (categories report) ->
                       cat_monthly_cost stats = 0%float).
Proof.
  cbv zeta.
  destruct (@scan_gmail (Samples.utc_host Samples.new_year_2025)
              initial_state true [Samples.bill] 0%nat)
    as [[[records st] n']|e] eqn:E; [|vm_compute in E; discriminate E].
  exists records, st, n'. split; [reflexivity|]. split.
  - vm_compute in E. injection E as <- _ _. reflexivity.
  - exact (@scan_reports_no_cost (Samples.utc_host Samples.new_year_2025)
             _ _ _ _ _ _ E).
Defined.



(** ** Duplicate messages *)

Lemma lookup_dict_set (k key : string) (e : Email) (d : list (string * Email)) :
  lookup_email k (dict_set key e d) =
  if String.eqb key k then Some e else lookup_email k d.
Proof.
  induction d as [|[k' v] d IH]; cbn [dict_set lookup_email].
  - destruct (String.eqb key k); reflexivity.
  - destruct (String.eqb k' key) eqn:Ek'; cbn [lookup_email].
    + apply String.eqb_eq in Ek'; subst k'.
      destruct (String.eqb key k); reflexivity.
    + rewrite IH. destruct (String.eqb k' k) eqn:Ek; [|reflexivity].
      apply String.eqb_eq in Ek; subst k'.
      rewrite String.eqb_sym, Ek'. reflexivity.
Qed.

Lemma keys_dict_set (key : string) (e : Email) (d : list (string * Email))
  (k : string) :
  In k (map fst (dict_set key e d)) <-> k = key \/ In k (map fst d).
Proof.
  induction d as [|[k' v] d IH]; cbn [dict_set map fst In].
  - intuition.
  - destruct (String.eqb k' key) eqn:Ek'; cbn [map fst In].
    + apply String.eqb_eq in Ek'; subst k'. intuition.
    + rewrite IH. intuition.
Qed.

Lemma NoDup_dict_set (key : string) (e : Email) (d : list (string * Email)) :
  NoDup (map fst d) -> NoDup (map fst (dict_set key e d)).
Proof.
  induction d as [|[k' v] d IH]; cbn [dict_set map fst]; intros Hnd.
  - constructor; [intros []|constructor].
  - inversion Hnd as [|? ? Hnotin Hnd']; subst.
    destruct (String.eqb k' key) eqn:Ek'; cbn [map fst].
    + constructor; assumption.
    + constructor; [|auto].
      rewrite keys_dict_set. intros [->|Hin]; [|contradiction].
      rewrite String.eqb_refl in Ek'. discriminate.
Qed.

Lemma In_lookup_email (d : list (string * Email)) (k : string) (v : Email) :
  NoDup (map fst d) -> (In (k, v) d <-> lookup_email k d = Some v).
Proof.
  induction d as [|[k' v'] d IH]; cbn [map fst In lookup_email]; intros Hnd.
  - split; [intros []|discriminate].
  - inversion Hnd as [|? ? Hnotin Hnd']; subst.
    destruct (String.eqb k' k) eqn:Ek.
    + apply String.eqb_eq in Ek; subst k'. split.
      * intros [[= ->]|Hin]; [reflexivity|].
        exfalso. apply Hnotin. apply (in_map fst) in Hin. exact Hin.
      * intros [= ->]. left. reflexivity.
    + rewrite <- (IH Hnd'). split.
      * intros [[= -> _]|Hin]; [|exact Hin].
        rewrite String.eqb_refl in Ek. discriminate.
      * intros Hin. right. exact Hin.
Qed.

Lemma last_with_id_snoc (k : string) (processed : list Email) (e : Email) :
  last_with_id k (processed ++ [e]) =
  if has_id k e then Some e else last_with_id k processed.
Proof.
  unfold last_with_id. rewrite rev_app_distr. reflexivity.
Qed.

Lemma unique_from_inv (emails processed : list Email)
  (d d' : list (string * Email)) :
  NoDup (map fst d) ->
  (forall k, lookup_email k d = last_with_id k processed) ->
  unique_from d emails = Some d' ->
  NoDup (map fst d') /\
  (forall k, lookup_email k d' = last_with_id k (processed ++ emails)) /\
  (forall e, In e emails -> e_id e <> None).
Proof.
  revert processed d; induction emails as [|e emails IH];
    intros processed d Hnd Hd; cbn [unique_from].
  - intros [= <-]. rewrite app_nil_r. repeat split; auto.
  - destruct (e_id e) as [i|] eqn:Ei; [|discriminate].
    intros Hrun.
    replace (processed ++ e :: emails) with ((processed ++ [e]) ++ emails)
      by (rewrite <- app_assoc; reflexivity).
    destruct (IH (processed ++ [e]) (dict_set i e d)) as (H1 & H2 & H3).
    + apply NoDup_dict_set. exact Hnd.
    + intros k. rewrite lookup_dict_set, last_with_id_snoc, Hd.
      unfold has_id. rewrite Ei. reflexivity.
    + exact Hrun.
    + repeat split; auto.
      intros x [<-|Hx]; [congruence|auto].
Qed.

Lemma NoDup_map_Some {A : Type} (l : list A) :
  NoDup l -> NoDup (map (@Some A) l).
Proof.
  induction 1 as [|a l Hnotin _ IH]; cbn [map]; constructor; [|exact IH].
  intros Hin. apply in_map_iff in Hin as (x & [= ->] & Hx). contradiction.
Qed.

Lemma last_with_id_found (k : string) (emails : list Email) (e : Email) :
  In e emails -> e_id e = Some k -> exists e', last_with_id k emails = Some e'.
Proof.
  intros He Hid. unfold last_with_id.
  destruct (find (has_id k) (rev emails)) as [e'|] eqn:E; [eauto|].
  exfalso. apply in_rev in He.
  pose proof (find_none _ _ E e He) as Hno.
  unfold has_id in Hno. rewrite Hid, String.eqb_refl in Hno. discriminate.
Qed.

Lemma last_with_id_id (k : string) (emails : list Email) (e : Email) :
  last_with_id k emails = Some e -> In e emails /\ e_id e = Some k.
Proof.
  unfold last_with_id. intros E. apply find_some in E as [Hin Hid].
  split; [apply in_rev; exact Hin|].
  unfold has_id in Hid. destruct (e_id e) as [i|]; [|discriminate].
  apply String.eqb_eq in Hid. congruence.
Qed.

(** X22: The retrieved emails are reduced to one per message id: the ids of the
    result are distinct, every id of the input is kept, and the email kept
    for an id is the last one retrieved with that id. *)
Theorem unique_emails_keeps_last (all kept : list Email) :
  unique_emails all = Some kept ->
  NoDup (map e_id kept) /\
  (forall e, In e kept ->
             exists i, e_id e = Some i /\ last_with_id i all = Some e) /\
  (forall e, In e all -> exists e', In e' kept /\ e_id e' = e_id e).
Proof.
  unfold unique_emails.
  destruct (unique_from [] all) as [d|] eqn:Hrun; [|discriminate].
  intros [= <-].
  destruct (unique_from_inv all [] [] d (NoDup_nil _) (fun _ => eq_refl) Hrun)
    as (Hnd & Hlook & Hids).
  cbn [app] in Hlook.
  assert (forall k v, In (k, v) d ->
                      e_id v = Some k /\ last_with_id k all = Some v) as Hentry.
  { intros k v Hin. apply (In_lookup_email _ _ _ Hnd) in Hin.
    rewrite Hlook in Hin. split; [|exact Hin].
    apply last_with_id_id in Hin. tauto. }
  split; [|split].
  - replace (map e_id (map snd d)) with (map (@Some string) (map fst d)).
    + apply NoDup_map_Some. exact Hnd.
    + rewrite !map_map. apply map_ext_in. intros [k v] Hin.
      cbn [fst snd]. symmetry. apply (Hentry k v Hin).
  - intros e He. apply in_map_iff in He as ([k v] & <- & Hin).
    exists k. exact (Hentry k v Hin).
  - intros e He. destruct (e_id e) as [i|] eqn:Ei;
      [|exfalso; exact (Hids e He Ei)].
    destruct (last_with_id_found i all e He Ei) as [e' He'].
    exists e'. split.
    + apply in_map_iff. exists (i, e'). split; [reflexivity|].
      apply (In_lookup_email _ _ _ Hnd). rewrite Hlook. exact He'.
    + apply last_with_id_id in He'. tauto.
Qed.

Lemma unique_emails_keeps_last_witness :
  exists kept,
    unique_emails MoreSamples.retrieved_twice = Some kept /\
    map e_id kept = [Some "m1"; Some "m2"; Some "m3"] /\
    map e_body_text kept = [Some "second copy"; Some ""; Some ""] /\
    (NoDup (map e_id kept) /\
     (forall e, In e kept ->
                exists i, e_id e = Some i /\
                          last_with_id i MoreSamples.retrieved_twice = Some e) /\
     (forall e, In e MoreSamples.retrieved_twice ->
                exists e', In e' kept /\ e_id e' = e_id e)).
Proof.
  eexists. split; [vm_compute; reflexivity|].
  split; [reflexivity|]. split; [reflexivity|].
  apply (unique_emails_keeps_last MoreSamples.retrieved_twice).
  vm_compute. reflexivity.
Defined.

Lemma dict_set_new (key : string) (e : Email) (d : list (string * Email)) :
  ~ In key (map fst d) -> dict_set key e d = d ++ [(key, e)].
Proof.
  induction d as [|[k' v] d IH]; cbn [dict_set map fst In app]; intros Hnew;
    [reflexivity|].
  destruct (String.eqb k' key) eqn:Ek.
  - apply String.eqb_eq in Ek. exfalso. apply Hnew. left. exact Ek.
  - rewrite IH; [reflexivity|]. intros Hin. apply Hnew. right. exact Hin.
Qed.

Lemma unique_from_distinct (emails : list Email) (d : list (string * Email)) :
  NoDup (map e_id emails) ->
  (forall e, In e emails -> e_id e <> None) ->
  (forall e k, In e emails -> e_id e = Some k -> ~ In k (map fst d)) ->
  exists d', unique_from d emails = Some (d ++ d') /\ map snd d' = emails.
Proof.
  revert d; induction emails as [|e emails IH]; intros d Hnd Hids Hnew;
    cbn [unique_from].
  - exists []. rewrite app_nil_r. auto.
  - destruct (e_id e) as [i|] eqn:Ei;
      [|exfalso; exact (Hids e (or_introl eq_refl) Ei)].
    cbn [map] in Hnd. rewrite Ei in Hnd.
    inversion Hnd as [|? ? Hnotin Hnd']; subst.
    rewrite (dict_set_new i e d (Hnew e i (or_introl eq_refl) Ei)).
    destruct (IH (d ++ [(i, e)]) Hnd') as (d' & Hrun & Hd').
    + intros x Hx. apply Hids. right. exact Hx.
    + intros x k Hx Hk. rewrite map_app. intros Hin.
      apply in_app_or in Hin as [Hin|Hin].
      * exact (Hnew x k (or_intror Hx) Hk Hin).
      * cbn [map fst In] in Hin. destruct Hin as [<-|[]].
        apply Hnotin. rewrite <- Hk. apply in_map. exact Hx.
    + exists ((i, e) :: d'). rewrite Hrun, <- app_assoc. cbn [app map snd].
      rewrite Hd'. auto.
Qed.

(** X23: Emails that already carry distinct ids come out unchanged, in the same
    order. *)
Theorem unique_emails_of_distinct (all : list Email) :
  NoDup (map e_id all) ->
  (forall e, In e all -> e_id e <> None) ->
  unique_emails all = Some all.
Proof.
  intros Hnd Hids.
  destruct (unique_from_distinct all [] Hnd Hids (fun _ _ _ _ F => F))
    as (d' & Hrun & Hd').
  unfold unique_emails. rewrite Hrun. cbn [app option_map]. rewrite Hd'.
  reflexivity.
Qed.

Lemma unique_emails_of_distinct_witness :
  NoDup (map e_id Samples.tie_group) /\
  (forall e, In e Samples.tie_group -> e_id e <> None) /\
  unique_emails Samples.tie_group = Some Samples.tie_group.
Proof.
  assert (NoDup (map e_id Samples.tie_group)) as Hnd.
  { cbn. repeat constructor; cbn [In]; intros F;
      repeat (destruct F as [F|F]; [discriminate F|]); exact F. }
  assert (forall e, In e Samples.tie_group -> e_id e <> None) as Hids.
  { intros e He. cbn [Samples.tie_group In] in He.
    repeat (destruct He as [<-|He]; [discriminate|]). destruct He. }
  split; [exact Hnd|]. split; [exact Hids|].
  exact (unique_emails_of_distinct Samples.tie_group Hnd Hids).
Defined.

(** ** Choosing among extracted amounts *)










(** ** The end date of a trial *)

Lemma parse_date_format `{Host} (date_str : string) (formats : list string)
  (d : datetime) :
  parse_date date_str formats = Some d ->
  exists fmt, In fmt formats /\ strptime date_str fmt = Some d.
Proof.
  induction formats as [|fmt formats IH]; cbn [parse_date]; [discriminate|].
  destruct (strptime date_str fmt) as [d'|] eqn:E.
  - intros [= <-]. exists fmt. split; [left; reflexivity|exact E].
  - intros Hd. destruct (IH Hd) as (f & Hf & Hp).
    exists f. split; [right; exact Hf|exact Hp].
Qed.

Lemma find_end_date_match `{Host} (pats : list regex) (email_content : string)
  (d : datetime) :
  find_end_date pats email_content = Some d ->
  exists pattern m,
    In pattern pats /\
    search true pattern email_content = Some m /\
    parse_date (get (group1 m) "") date_formats = Some d.
Proof.
  induction pats as [|pattern pats IH]; cbn [find_end_date]; [discriminate|].
  assert (find_end_date pats email_content = Some d ->
          exists p m, In p (pattern :: pats) /\
                      search true p email_content = Some m /\
                      parse_date (get (group1 m) "") date_formats = Some d)
    as Hrest.
  { intros Hd. destruct (IH Hd) as (p & m & Hp & Hs & Hparse).
    exists p, m. split; [right; exact Hp|]. auto. }
  destruct (search true pattern email_content) as [m|] eqn:Es; [|exact Hrest].
  destruct (parse_date (get (group1 m) "") date_formats) as [d'|] eqn:Ep;
    [|exact Hrest].
  intros [= <-]. exists pattern, m. split; [left; reflexivity|]. auto.
Qed.

(** X25: A trial end date is never made up: when one is returned, the text is a
    free trial, one of the four date patterns matches it, and the date is
    what [strptime] reads from the matched date text in one of the six
    formats. *)
Theorem trial_end_date_is_parsed `{Host} (email_content : string)
  (d : datetime) :
  snd (detect_free_trial email_content) = Some d ->
  fst (detect_free_trial email_content) = true /\
  exists pattern m fmt,
    In pattern date_patterns /\
    search true pattern email_content = Some m /\
    In fmt date_formats /\
    strptime (get (group1 m) "") fmt = Some d.
Proof.
  unfold detect_free_trial.
  destruct (any_found trial_patterns email_content); cbn [fst snd];
    [|discriminate].
  intros Hd. split; [reflexivity|].
  destruct (find_end_date_match _ _ _ Hd) as (pattern & m & Hp & Hs & Hparse).
  destruct (parse_date_format _ _ _ Hparse) as (fmt & Hf & Hstr).
  exists pattern, m, fmt. auto.
Qed.

Lemma trial_end_date_is_parsed_witness :
  let host := MoreSamples.parsing_host Samples.new_year_2025 in
  let text := "Your free trial ends on January 5, 2025." in
  @detect_free_trial host text = (true, Some MoreSamples.january_5_2025) /\
  fst (@detect_free_trial host text) = true /\
  exists pattern m fmt,
    In pattern date_patterns /\
    search true pattern text = Some m /\
    In fmt date_formats /\
    @strptime host (get (group1 m) "") fmt = Some MoreSamples.january_5_2025.
Proof.
  cbv zeta.
  assert (@detect_free_trial (MoreSamples.parsing_host Samples.new_year_2025)
            "Your free trial ends on January 5, 2025."
          = (true, Some MoreSamples.january_5_2025)) as E
    by (vm_compute; reflexivity).
  split; [exact E|].
  apply (@trial_end_date_is_parsed
           (MoreSamples.parsing_host Samples.new_year_2025)
           "Your free trial ends on January 5, 2025.").
  rewrite E. reflexivity.
Defined.
